(** * Coordinate mapping between TeX pages and the TLDraw canvas

    A shallow embedding of the two SyncTeX helper scripts of the
    repository,

      - [synctex-lookup.mjs]  (canvas position -> PDF position -> TeX line),
      - [synctex-reverse.mjs] (TeX line -> PDF position -> canvas position),

    together with the properties of their page layout and of the two
    coordinate conversions.

    Conventions of the embedding.

    - A JavaScript number is a [number]: an exact rational, one of the two
      infinities, or NaN.  The special values follow IEEE 754 (division by
      zero, NaN propagation, comparisons with NaN); finite arithmetic is
      exact, so binary64 rounding and overflow are not represented, and
      numbers are taken up to [===], so that the two zeros are one value.
    - A JavaScript string is a [string] whose characters are code units
      below 256.
    - [undefined] is [None]; a call that may throw returns a [completion],
      whose [Throw] case carries the exception.
    - The file system and the child process are inputs: the resolver takes
      the contents of [page-01.svg], [page-02.svg], ... up to the first
      missing file, and the oracle is a function from the query to what
      [execSync] does. *)

From Stdlib Require Import QArith Qcanon Lqa ZArith Lia Ascii String.
From stdpp Require Import gmap strings list.

Local Open Scope string_scope.
Local Open Scope list_scope.

(** ** The JavaScript values the scripts compute with *)

Module JS.

(** *** Numbers *)

Inductive number : Type :=
| Fin (q : Qc)
| PosInf
| NegInf
| NaN.

Definition of_Z (z : Z) : number := Fin (Q2Qc (inject_Z z)).
Definition of_nat (n : nat) : number := of_Z (Z.of_nat n).

Definition zero : number := of_Z 0.
Definition one : number := of_Z 1.

Definition Qc_sgn (q : Qc) : comparison := Qccompare q (Q2Qc 0).

Definition neg (a : number) : number :=
  match a with
  | Fin q => Fin (Qcopp q)
  | PosInf => NegInf
  | NegInf => PosInf
  | NaN => NaN
  end.

Definition add (a b : number) : number :=
  match a, b with
  | NaN, _ | _, NaN => NaN
  | Fin x, Fin y => Fin (Qcplus x y)
  | PosInf, NegInf | NegInf, PosInf => NaN
  | PosInf, _ | _, PosInf => PosInf
  | NegInf, _ | _, NegInf => NegInf
  end.

Definition sub (a b : number) : number := add a (neg b).

(** An infinity scaled by a finite factor: NaN for a zero factor. *)
Definition inf_times (positive : bool) (q : Qc) : number :=
  match Qc_sgn q with
  | Eq => NaN
  | Gt => if positive then PosInf else NegInf
  | Lt => if positive then NegInf else PosInf
  end.

Definition mul (a b : number) : number :=
  match a, b with
  | NaN, _ | _, NaN => NaN
  | Fin x, Fin y => Fin (Qcmult x y)
  | PosInf, Fin y => inf_times true y
  | NegInf, Fin y => inf_times false y
  | Fin x, PosInf => inf_times true x
  | Fin x, NegInf => inf_times false x
  | PosInf, PosInf | NegInf, NegInf => PosInf
  | PosInf, NegInf | NegInf, PosInf => NegInf
  end.

Definition div (a b : number) : number :=
  match a, b with
  | NaN, _ | _, NaN => NaN
  | Fin x, Fin y =>
      match Qc_sgn y with
      | Eq => match Qc_sgn x with
              | Eq => NaN
              | Gt => PosInf
              | Lt => NegInf
              end
      | _ => Fin (Qcdiv x y)
      end
  | Fin _, (PosInf | NegInf) => zero
  | PosInf, Fin y => match Qc_sgn y with Lt => NegInf | _ => PosInf end
  | NegInf, Fin y => match Qc_sgn y with Lt => PosInf | _ => NegInf end
  | (PosInf | NegInf), (PosInf | NegInf) => NaN
  end.

(** [a < b] and [a >= b]; both are false as soon as one side is NaN. *)
Definition lt (a b : number) : bool :=
  match a, b with
  | NaN, _ | _, NaN => false
  | Fin x, Fin y => match Qccompare x y with Lt => true | _ => false end
  | NegInf, (Fin _ | PosInf) => true
  | Fin _, PosInf => true
  | _, _ => false
  end.

Definition ge (a b : number) : bool :=
  match a, b with
  | NaN, _ | _, NaN => false
  | Fin x, Fin y => match Qccompare x y with Lt => false | _ => true end
  | PosInf, _ => true
  | _, NegInf => true
  | _, _ => false
  end.

(** [ToBoolean] on a number: NaN and zero are falsy. *)
Definition truthy (a : number) : bool :=
  match a with
  | NaN => false
  | Fin q => match Qc_sgn q with Eq => false | _ => true end
  | _ => true
  end.

(** [a || b] on numbers. *)
Definition or_else (a b : number) : number := if truthy a then a else b.

Definition isNaN (a : number) : bool :=
  match a with NaN => true | _ => false end.

(** [arr[i]] for a number [i]: an element only at an integer index inside
    the array, [undefined] anywhere else. *)
Definition array_get {A : Type} (arr : list A) (i : number) : option A :=
  match i with
  | Fin q =>
      let z := Qnum (this q) in
      if (Pos.eqb (Qden (this q)) 1 && (0 <=? z)%Z
          && (z <? Z.of_nat (length arr))%Z)%bool
      then arr !! Z.to_nat z
      else None
  | _ => None
  end.

(** *** Strings

    The regular expressions of the scripts are written out as the string
    functions they denote; each definition names its pattern. *)

Definition code (c : ascii) : N := N_of_ascii c.

Definition in_range (lo hi : N) (c : ascii) : bool :=
  ((lo <=? code c) && (code c <=? hi))%N.

(** [[0-9]] *)
Definition is_digit (c : ascii) : bool := in_range 48 57 c.

(** [\w], that is [[A-Za-z0-9_]] *)
Definition is_word (c : ascii) : bool :=
  in_range 65 90 c || in_range 97 122 c || is_digit c || (code c =? 95)%N.

(** [\s] and the white space [parseFloat] and [parseInt] skip: TAB, LF, VT,
    FF, CR, SP and NBSP are the ones below 256. *)
Definition is_space (c : ascii) : bool :=
  in_range 9 13 c || (code c =? 32)%N || (code c =? 160)%N.

(** The class of the two quote characters, written [q] in the patterns
    below. *)
Definition is_quote (c : ascii) : bool :=
  (code c =? 39)%N || (code c =? 34)%N.

(** [[0-9.]] *)
Definition is_digit_or_dot (c : ascii) : bool :=
  is_digit c || (code c =? 46)%N.

(** A line terminator, which [.] does not match: LF and CR. *)
Definition is_line_terminator (c : ascii) : bool :=
  (code c =? 10)%N || (code c =? 13)%N.

(** The longest prefix whose characters satisfy [p], and the rest. *)
Fixpoint span (p : ascii -> bool) (s : string) : string * string :=
  match s with
  | EmptyString => (EmptyString, EmptyString)
  | String c r =>
      if p c then let '(a, b) := span p r in (String c a, b)
      else (EmptyString, s)
  end.

Fixpoint strip_prefix (pre s : string) : option string :=
  match pre, s with
  | EmptyString, _ => Some s
  | String a pre', String b s' =>
      if Ascii.eqb a b then strip_prefix pre' s' else None
  | String _ _, EmptyString => None
  end.

Definition is_empty (s : string) : bool :=
  match s with EmptyString => true | _ => false end.

(** The leftmost position at which [at_pos] matches: how an unanchored
    regular expression searches. *)
Fixpoint search {A : Type} (at_pos : string -> option A) (s : string)
  : option A :=
  match at_pos s with
  | Some a => Some a
  | None => match s with
            | EmptyString => None
            | String _ r => search at_pos r
            end
  end.

(** [name=q([^q]+)q] tried at the start of [s]; the result is the group.
    The group is greedy and cannot give a character back, since what
    follows it must be a quote. *)
Definition quoted_attr_at (name s : string) : option string :=
  match strip_prefix name s with
  | Some (String q r) =>
      if is_quote q then
        match span (fun c => negb (is_quote c)) r with
        | (String c v, String _ _) => Some (String c v)
        | _ => None
        end
      else None
  | _ => None
  end.

(** [name=q([0-9.]+)] tried at the start of [s]. *)
Definition numeric_attr_at (name s : string) : option string :=
  match strip_prefix name s with
  | Some (String q r) =>
      if is_quote q then
        match span is_digit_or_dot r with
        | (String c v, _) => Some (String c v)
        | _ => None
        end
      else None
  | _ => None
  end.

(** [s.match(/viewBox=q([^q]+)q/)], as its group 1. *)
Definition match_viewBox (s : string) : option string :=
  search (quoted_attr_at "viewBox=") s.

(** [s.match(/width=q([0-9.]+)/)], as its group 1. *)
Definition match_width (s : string) : option string :=
  search (numeric_attr_at "width=") s.

(** [s.match(/height=q([0-9.]+)/)], as its group 1. *)
Definition match_height (s : string) : option string :=
  search (numeric_attr_at "height=") s.

(** [s.split(/\s+/)], as the list whose head is the piece being read;
    [in_sep] tells that the previous character was white space. *)
Fixpoint split_spaces_from (in_sep : bool) (s : string) : list string :=
  match s with
  | EmptyString => [EmptyString]
  | String c r =>
      if is_space c then
        if in_sep then split_spaces_from true r
        else EmptyString :: split_spaces_from true r
      else
        match split_spaces_from false r with
        | piece :: pieces => String c piece :: pieces
        | [] => [String c EmptyString]
        end
  end.

Definition split_spaces (s : string) : list string :=
  split_spaces_from false s.

(** [s.split(LF)], the split at every line feed. *)
Fixpoint split_lines (s : string) : list string :=
  match s with
  | EmptyString => [EmptyString]
  | String c r =>
      if (code c =? 10)%N then EmptyString :: split_lines r
      else
        match split_lines r with
        | piece :: pieces => String c piece :: pieces
        | [] => [String c EmptyString]
        end
  end.

(** [line.match(/^(\w+):(.+)$/)], as the pair of its groups. *)
Definition match_key_value (line : string) : option (string * string) :=
  match span is_word line with
  | (String k key, String colon (String v value)) =>
      if ((code colon =? 58)%N
          && forallb (fun c => negb (is_line_terminator c))
               (list_ascii_of_string (String v value)))%bool
      then Some (String k key, String v value)
      else None
  | _ => None
  end.

Definition lower_char (c : ascii) : ascii :=
  if in_range 65 90 c
     || (in_range 192 222 c && negb (code c =? 215)%N)
  then ascii_of_N (code c + 32)
  else c.

(** [s.toLowerCase()] *)
Fixpoint toLowerCase (s : string) : string :=
  match s with
  | EmptyString => EmptyString
  | String c r => String (lower_char c) (toLowerCase r)
  end.

(** *** Numeric literals *)

Definition digit_value (c : ascii) : Z := Z.of_N (code c - 48).

(** The value of a run of decimal digits. *)
Definition decimal (s : string) : Z :=
  fold_left (fun acc c => (10 * acc + digit_value c)%Z)
    (list_ascii_of_string s) 0%Z.

(** An optional sign: whether it is a minus, and the rest. *)
Definition take_sign (s : string) : bool * string :=
  match s with
  | String c r =>
      if (code c =? 45)%N then (true, r)
      else if (code c =? 43)%N then (false, r)
      else (false, s)
  | EmptyString => (false, s)
  end.

(** An exponent part [[eE][+-]?[0-9]+] at the start of [s], as its value;
    [0] when there is none. *)
Definition exponent_part (s : string) : Z :=
  match s with
  | String c r =>
      if ((code c =? 101) || (code c =? 69))%N then
        let '(minus, r') := take_sign r in
        match fst (span is_digit r') with
        | EmptyString => 0%Z
        | ds => if minus then (- decimal ds)%Z else decimal ds
        end
      else 0%Z
  | EmptyString => 0%Z
  end.

(** [parseFloat(s)]: white space is skipped, then the longest prefix that
    is a decimal literal ([Infinity] included) is read; NaN when there is
    none. *)
Definition parseFloat (s : string) : number :=
  let '(minus, u) := take_sign (snd (span is_space s)) in
  match strip_prefix "Infinity" u with
  | Some _ => if minus then NegInf else PosInf
  | None =>
      let '(int_digits, r1) := span is_digit u in
      let '(frac_digits, r2) :=
        match r1 with
        | String c r =>
            if (code c =? 46)%N then span is_digit r
            else (EmptyString, r1)
        | EmptyString => (EmptyString, r1)
        end in
      if is_empty int_digits && is_empty frac_digits then NaN
      else
        let mantissa := decimal (int_digits +:+ frac_digits) in
        let e := (exponent_part r2 - Z.of_nat (String.length frac_digits))%Z in
        let q := (inject_Z mantissa * Qpower (inject_Z 10) e)%Q in
        Fin (Q2Qc (if minus then Qopp q else q))
  end.

(** [parseFloat(x)] for an [x] that may be [undefined]. *)
Definition parseFloat_opt (x : option string) : number :=
  match x with Some s => parseFloat s | None => NaN end.

(** The value of a hexadecimal digit. *)
Definition hex_value (c : ascii) : option Z :=
  if is_digit c then Some (digit_value c)
  else if in_range 97 102 c then Some (Z.of_N (code c - 87))
  else if in_range 65 70 c then Some (Z.of_N (code c - 55))
  else None.

Fixpoint hex_digits (acc : Z) (seen : bool) (s : string) : option Z :=
  match s with
  | String c r =>
      match hex_value c with
      | Some d => hex_digits (16 * acc + d)%Z true r
      | None => if seen then Some acc else None
      end
  | EmptyString => if seen then Some acc else None
  end.

(** [parseInt(s)] without a radix: white space and a sign are skipped, a
    [0x] or [0X] prefix selects base 16, and the longest run of digits is
    read; NaN when there is none. *)
Definition parseInt (s : string) : number :=
  let '(minus, u) := take_sign (snd (span is_space s)) in
  let signed (z : Z) := of_Z (if minus then (- z)%Z else z) in
  let hex :=
    match u with
    | String z (String x r) =>
        if ((code z =? 48) && ((code x =? 120) || (code x =? 88)))%N
        then Some r else None
    | _ => None
    end in
  match hex with
  | Some r => match hex_digits 0 false r with
              | Some v => signed v
              | None => NaN
              end
  | None => match fst (span is_digit u) with
            | EmptyString => NaN
            | ds => signed (decimal ds)
            end
  end.

Definition parseInt_opt (x : option string) : number :=
  match x with Some s => parseInt s | None => NaN end.

(** *** Exceptions *)

Inductive exn : Type :=
| TypeError_undefined (property : string)
    (* reading [property] of [undefined] *)
| Error_page_not_found (pageNum : number).
    (* [new Error(`Page ${pageNum} not found`)] *)

Inductive completion (A : Type) : Type :=
| Normal (a : A)
| Throw (e : exn).
Arguments Normal {A} a.
Arguments Throw {A} e.

(** What a call of [execSync] does: it returns the standard output, or it
    throws an error that carries a message and, when the process was
    started, the standard output captured so far. *)
Inductive exec_outcome : Type :=
| Returned (stdout : string)
| Failed (stdout : option string) (message : string).

End JS.

Declare Scope js_scope.
Delimit Scope js_scope with js.
Bind Scope js_scope with JS.number.
Infix "+" := JS.add : js_scope.
Infix "-" := JS.sub : js_scope.
Infix "*" := JS.mul : js_scope.
Infix "/" := JS.div : js_scope.
Infix "<?" := JS.lt : js_scope.
Infix ">=?" := JS.ge : js_scope.
Infix "||" := JS.or_else : js_scope.

Import JS.

(** A JavaScript value stored in a parsed oracle response. *)
Inductive value : Type :=
| VString (s : string)
| VNumber (n : number).

(** [ToBoolean]: the empty string, zero and NaN are falsy; a missing
    property is [undefined], which is falsy as well. *)
Definition value_truthy (v : option value) : bool :=
  match v with
  | Some (VString s) => negb (is_empty s)
  | Some (VNumber n) => truthy n
  | None => false
  end.

(** [result[key] = v] on an ordinary object: the key [__proto__] reaches
    the setter inherited from [Object.prototype], which ignores a string or
    a number, and every other key becomes an own property. *)
Definition set_property (key : string) (v : value)
  (result : gmap string value) : gmap string value :=
  if String.eqb key "__proto__" then result else <[key := v]> result.

(** ** synctex-lookup.mjs: canvas position to TeX line *)

Module Lookup.

Definition TARGET_WIDTH : number := of_Z 800.
Definition PAGE_SPACING : number := of_Z 32.

(** The objects pushed on [pages]. *)
Record page : Type := {
  pageNum : number;
  origWidth : number;
  origHeight : number;
  viewBoxMinX : number;
  viewBoxMinY : number;
  scaledWidth : number;
  scaledHeight : number;
  scale : number;
  top : number;
  bottom : number
}.

(** The body of the [while] loop for one file that exists: the page object
    built from [svgContent] when the counters are [pageNum] and [top]. *)
Definition readPage (svgContent : string) (pageNum top : number) : page :=
  let viewBoxMatch := match_viewBox svgContent in
  let viewBoxMinX := zero in
  let viewBoxMinY := zero in
  let origWidth := of_Z 600 in
  let origHeight := of_Z 800 in
  let '(viewBoxMinX, viewBoxMinY, origWidth, origHeight) :=
    match viewBoxMatch with
    | Some group =>
        match split_spaces group with
        | [p0; p1; p2; p3] =>
            ((parseFloat p0 || zero)%js,
             (parseFloat p1 || zero)%js,
             (parseFloat p2 || origWidth)%js,
             (parseFloat p3 || origHeight)%js)
        | _ => (viewBoxMinX, viewBoxMinY, origWidth, origHeight)
        end
    | None => (viewBoxMinX, viewBoxMinY, origWidth, origHeight)
    end in
  let widthMatch := match_width svgContent in
  let heightMatch := match_height svgContent in
  let origWidth :=
    match widthMatch with Some g => parseFloat g | None => origWidth end in
  let origHeight :=
    match heightMatch with Some g => parseFloat g | None => origHeight end in
  let scale := (TARGET_WIDTH / origWidth)%js in
  let scaledWidth := (origWidth * scale)%js in
  let scaledHeight := (origHeight * scale)%js in
  {| pageNum := pageNum;
     origWidth := origWidth;
     origHeight := origHeight;
     viewBoxMinX := viewBoxMinX;
     viewBoxMinY := viewBoxMinY;
     scaledWidth := scaledWidth;
     scaledHeight := scaledHeight;
     scale := scale;
     top := top;
     bottom := (top + scaledHeight)%js |}.

(** The [while] loop, entered with the counters [pageNum] and [top];
    [files] holds the contents of the files found from [pageNum] on, and
    the loop breaks when they are exhausted. *)
Fixpoint readPages (files : list string) (pageNum top : number)
  : list page :=
  match files with
  | [] => []
  | svgContent :: rest =>
      let pg := readPage svgContent pageNum top in
      pg :: readPages rest (pageNum + one)%js
              (top + (scaledHeight pg + PAGE_SPACING))%js
  end.

(** [getPageDimensions()]: [pageCache] is the module variable, threaded
    through the call; [null] is [None]. *)
Definition getPageDimensions (pageCache : option (list page))
  (files : list string) : list page * option (list page) :=
  match pageCache with
  | Some pages => (pages, pageCache)
  | None =>
      let pages := readPages files one zero in
      (pages, Some pages)
  end.

(** The test of the [for] loop of [findPageForY]. *)
Definition in_band (pg : page) (y : number) : bool :=
  (y >=? top pg)%js && (y <? bottom pg)%js.

Fixpoint findPageForY_loop (pages : list page) (y : number) : option page :=
  match pages with
  | [] => None
  | pg :: rest => if in_band pg y then Some pg else findPageForY_loop rest y
  end.

(** [findPageForY(pages, y)]; on an empty array [pages[pages.length - 1]]
    is [undefined]. *)
Definition findPageForY (pages : list page) (y : number) : option page :=
  match findPageForY_loop pages y with
  | Some pg => Some pg
  | None => array_get pages (of_nat (length pages) - one)%js
  end.

(** The object [tldrawToPdfCoords] returns; [page_of] is its property
    [page], and [coords_origWidth] and [coords_origHeight] are its
    properties [origWidth] and [origHeight]. *)
Record pdf_coords : Type := {
  page_of : number;
  pdfX : number;
  pdfY : number;
  localX : number;
  localY : number;
  coords_origWidth : number;
  coords_origHeight : number
}.

(** [tldrawToPdfCoords(pages, tlX, tlY)]; reading [page.top] throws when
    no page was found. *)
Definition tldrawToPdfCoords (pages : list page) (tlX tlY : number)
  : completion pdf_coords :=
  match findPageForY pages tlY with
  | None => Throw (TypeError_undefined "top")
  | Some pg =>
      let localX := tlX in
      let localY := (tlY - top pg)%js in
      let pdfX := (localX / scale pg + viewBoxMinX pg)%js in
      let pdfY := (localY / scale pg + viewBoxMinY pg)%js in
      Normal {| page_of := pageNum pg;
                pdfX := pdfX;
                pdfY := pdfY;
                localX := localX;
                localY := localY;
                coords_origWidth := origWidth pg;
                coords_origHeight := origHeight pg |}
  end.

(** The body of the [for] loop of [parseSynctexOutput]. *)
Definition parse_line (result : gmap string value) (line : string)
  : gmap string value :=
  match match_key_value line with
  | Some (k, v) =>
      let key := toLowerCase k in
      if String.eqb key "line" || String.eqb key "column"
      then set_property key (VNumber (parseInt v)) result
      else set_property key (VString v) result
  | None => result
  end.

(** [parseSynctexOutput(output)] *)
Definition parseSynctexOutput (output : string) : gmap string value :=
  fold_left parse_line (split_lines output) ∅.

(** [synctexLookup(pageNum, pdfX, pdfY)]; [execSync] stands for the run of
    the [synctex edit] command built from the three numbers. *)
Definition synctexLookup (execSync : number -> number -> number -> exec_outcome)
  (pageNum pdfX pdfY : number) : gmap string value :=
  match execSync pageNum pdfX pdfY with
  | Returned output => parseSynctexOutput output
  | Failed stdout message =>
      match stdout with
      | Some out =>
          if negb (is_empty out) then parseSynctexOutput out
          else {[ "error" := VString message ]}
      | None => {[ "error" := VString message ]}
      end
  end.

(** The records of [snapshot.store] and the annotations read from
    them. *)
Record store_record : Type := {
  typeName : string;
  type : string;
  id : string;
  x : number;
  y : number;
  color : option string
}.

(** What the script finds outside itself. *)
Record world : Type := {
  pdf_exists : bool;
  synctex_exists : bool;
  svg_files : list string;
  snapshot : option (list store_record);
  execSync : number -> number -> number -> exec_outcome
}.

(** One constructor for each message the script prints. *)
Inductive message : Type :=
| PdfNotFound
| SynctexNotFound
| NoSnapshot
| Loaded (n : nat)
| Found (n : nat)
| AnnotationAt (ann : store_record)
| PageCoords (c : pdf_coords)
| Source (input line : value)
| NoSource
| TldrawCoords (x y : number)
| Json (input line : value) (c : pdf_coords) (x y : number)
| Usage.

(** How the process ends: [main] returns, [process.exit] is called, or an
    exception reaches the [catch] of the last line, which exits with
    status 1. *)
Inductive ending : Type :=
| Returns
| Exits (status : Z)
| Uncaught (e : exn).

(** [readAnnotationsFromSnapshot()], with what it prints. *)
Definition readAnnotationsFromSnapshot (w : world)
  : list message * list store_record :=
  match snapshot w with
  | None => ([NoSnapshot], [])
  | Some store =>
      ([], List.filter
             (fun r => String.eqb (typeName r) "shape"
                       && negb (String.eqb (type r) "image"))
             store)
  end.

(** [result.input && result.line], the test both branches of [main] make on
    a lookup result. *)
Definition has_source (result : gmap string value) : bool :=
  value_truthy (result !! "input") && value_truthy (result !! "line").

Definition source_of (result : gmap string value) : option (value * value) :=
  if has_source result
  then match result !! "input", result !! "line" with
       | Some i, Some l => Some (i, l)
       | _, _ => None
       end
  else None.

(** The [for] loop over the annotations of a snapshot. *)
Fixpoint annotations_loop (w : world) (pages : list page)
  (annotations : list store_record) : list message * ending :=
  match annotations with
  | [] => ([], Returns)
  | ann :: rest =>
      match tldrawToPdfCoords pages (x ann) (y ann) with
      | Throw e => ([], Uncaught e)
      | Normal coords =>
          let result :=
            synctexLookup (execSync w) (page_of coords) (pdfX coords)
              (pdfY coords) in
          let printed :=
            [AnnotationAt ann; PageCoords coords;
             match source_of result with
             | Some (i, l) => Source i l
             | None => NoSource
             end] in
          let '(later, e) := annotations_loop w pages rest in
          (printed ++ later, e)
      end
  end.

(** [main()], for the command line [args]. *)
Definition main (w : world) (args : list string) : list message * ending :=
  if negb (pdf_exists w) then ([PdfNotFound], Exits 1)
  else if negb (synctex_exists w) then ([SynctexNotFound], Exits 1)
  else
    let pages := (getPageDimensions None (svg_files w)).1 in
    let loaded := [Loaded (length pages)] in
    if bool_decide (args !! 0%nat = Some "--from-snapshot") then
      let '(warned, annotations) := readAnnotationsFromSnapshot w in
      let '(printed, e) := annotations_loop w pages annotations in
      (loaded ++ warned ++ [Found (length annotations)] ++ printed, e)
    else
      let xy : completion (number * number) :=
        if bool_decide (args !! 0%nat = Some "--page") then
          let pageNum := parseInt_opt (args !! 1%nat) in
          let x := parseFloat_opt (args !! 2%nat) in
          let y := parseFloat_opt (args !! 3%nat) in
          match array_get pages (pageNum - one)%js with
          | Some pg => Normal (x, (top pg + y)%js)
          | None => Throw (TypeError_undefined "top")
          end
        else
          Normal (parseFloat_opt (args !! 0%nat),
                  parseFloat_opt (args !! 1%nat)) in
      match xy with
      | Throw e => (loaded, Uncaught e)
      | Normal (x, y) =>
          if isNaN x || isNaN y then (loaded ++ [Usage], Exits 1)
          else
            match tldrawToPdfCoords pages x y with
            | Throw e => (loaded, Uncaught e)
            | Normal coords =>
                let result :=
                  synctexLookup (execSync w) (page_of coords) (pdfX coords)
                    (pdfY coords) in
                (loaded ++ [TldrawCoords x y; PageCoords coords] ++
                 match source_of result with
                 | Some (i, l) => [Source i l; Json i l coords x y]
                 | None => [NoSource]
                 end,
                 Returns)
            end
      end.

End Lookup.

(** ** synctex-reverse.mjs: TeX line to canvas position *)

Module Reverse.

Definition TARGET_WIDTH : number := of_Z 800.
Definition PAGE_SPACING : number := of_Z 32.

(** The objects pushed on [pages]; this script keeps no scaled sizes. *)
Record page : Type := {
  pageNum : number;
  origWidth : number;
  origHeight : number;
  viewBoxMinX : number;
  viewBoxMinY : number;
  scale : number;
  top : number;
  bottom : number
}.

(** The body of the [while] loop for one file that exists, together with
    the [scaledHeight] the loop goes on with. *)
Definition readPage (svgContent : string) (pageNum top : number)
  : page * number :=
  let viewBoxMatch := match_viewBox svgContent in
  let viewBoxMinX := zero in
  let viewBoxMinY := zero in
  let origWidth := of_Z 600 in
  let origHeight := of_Z 800 in
  let '(viewBoxMinX, viewBoxMinY, origWidth, origHeight) :=
    match viewBoxMatch with
    | Some group =>
        match split_spaces group with
        | [p0; p1; p2; p3] =>
            ((parseFloat p0 || zero)%js,
             (parseFloat p1 || zero)%js,
             (parseFloat p2 || origWidth)%js,
             (parseFloat p3 || origHeight)%js)
        | _ => (viewBoxMinX, viewBoxMinY, origWidth, origHeight)
        end
    | None => (viewBoxMinX, viewBoxMinY, origWidth, origHeight)
    end in
  let widthMatch := match_width svgContent in
  let heightMatch := match_height svgContent in
  let origWidth :=
    match widthMatch with Some g => parseFloat g | None => origWidth end in
  let origHeight :=
    match heightMatch with Some g => parseFloat g | None => origHeight end in
  let scale := (TARGET_WIDTH / origWidth)%js in
  let scaledHeight := (origHeight * scale)%js in
  ({| pageNum := pageNum;
      origWidth := origWidth;
      origHeight := origHeight;
      viewBoxMinX := viewBoxMinX;
      viewBoxMinY := viewBoxMinY;
      scale := scale;
      top := top;
      bottom := (top + scaledHeight)%js |},
   scaledHeight).

Fixpoint readPages (files : list string) (pageNum top : number)
  : list page :=
  match files with
  | [] => []
  | svgContent :: rest =>
      let '(pg, scaledHeight) := readPage svgContent pageNum top in
      pg :: readPages rest (pageNum + one)%js
              (top + (scaledHeight + PAGE_SPACING))%js
  end.

(** [getPageDimensions()], with the module variable [pageCache] threaded
    through the call. *)
Definition getPageDimensions (pageCache : option (list page))
  (files : list string) : list page * option (list page) :=
  match pageCache with
  | Some pages => (pages, pageCache)
  | None =>
      let pages := readPages files one zero in
      (pages, Some pages)
  end.

(** The object [pdfToTldrawCoords] returns; [page_of] is its property
    [page]. *)
Record tldraw_coords : Type := {
  tldrawX : number;
  tldrawY : number;
  page_of : number
}.

(** [pdfToTldrawCoords(pages, pageNum, pdfX, pdfY)]; an object is truthy,
    so [!page] holds exactly when the element is [undefined]. *)
Definition pdfToTldrawCoords (pages : list page) (pageNum pdfX pdfY : number)
  : completion tldraw_coords :=
  match array_get pages (pageNum - one)%js with
  | None => Throw (Error_page_not_found pageNum)
  | Some pg =>
      let localX := ((pdfX - viewBoxMinX pg) * scale pg)%js in
      let localY := ((pdfY - viewBoxMinY pg) * scale pg)%js in
      let tldrawX := localX in
      let tldrawY := (top pg + localY)%js in
      Normal {| tldrawX := tldrawX; tldrawY := tldrawY; page_of := pageNum |}
  end.

(** The body of the [for] loop of [parseSynctexOutput], which in this
    script reads the geometric properties as numbers. *)
Definition parse_line (result : gmap string value) (line : string)
  : gmap string value :=
  match match_key_value line with
  | Some (k, v) =>
      let key := toLowerCase k in
      if existsb (String.eqb key) ["page"; "x"; "y"; "h"; "v"; "w"; "height"]
      then set_property key (VNumber (parseFloat v)) result
      else set_property key (VString v) result
  | None => result
  end.

(** [parseSynctexOutput(output)] *)
Definition parseSynctexOutput (output : string) : gmap string value :=
  fold_left parse_line (split_lines output) ∅.

(** [synctexView(texFile, line)]; [execSync] stands for the run of the
    [synctex view] command built from the two arguments.  The left case is
    the error of [execSync] thrown again, with its message. *)
Definition synctexView (execSync : string -> number -> exec_outcome)
  (texFile : string) (line : number) : string + gmap string value :=
  match execSync texFile line with
  | Returned output => inr (parseSynctexOutput output)
  | Failed stdout message =>
      match stdout with
      | Some out =>
          if negb (is_empty out) then inr (parseSynctexOutput out)
          else inl message
      | None => inl message
      end
  end.

(** [result[key]] for one of the keys this script stores as numbers: the
    number, or [None] for [undefined].  [parse_line] never stores a string
    under such a key. *)
Definition number_property (result : gmap string value) (key : string)
  : option number :=
  match result !! key with
  | Some (VNumber n) => Some n
  | _ => None
  end.

(** What the script finds outside itself; a TeX file is named as on the
    command line. *)
Record world : Type := {
  tex_exists : string -> bool;
  svg_files : list string;
  execSync : string -> number -> exec_outcome
}.

(** One constructor for each message the script prints. *)
Inductive message : Type :=
| Usage
| FileNotFound (texFile : string)
| NoCoordinates (synctexResult : gmap string value)
| TexLine (texFile : string) (line : number)
| PdfCoords (page x y : number)
| TldrawCoords (c : tldraw_coords)
| Json (c : tldraw_coords) (pdfX pdfY : number).

(** How the process ends: [main] returns, [process.exit] is called, or an
    exception reaches the [catch] of the last line, which exits with
    status 1; the exception is the error of [execSync] or one the script
    raises. *)
Inductive ending : Type :=
| Returns
| Exits (status : Z)
| UncaughtChildProcess (message : string)
| Uncaught (e : exn).

(** [main()], for the command line [args]. *)
Definition main (w : world) (args : list string) : list message * ending :=
  match args with
  | texFile :: lineArg :: _ =>
      let line := parseInt lineArg in
      if negb (tex_exists w texFile) then ([FileNotFound texFile], Exits 1)
      else
        match synctexView (execSync w) texFile line with
        | inl message => ([], UncaughtChildProcess message)
        | inr synctexResult =>
            match number_property synctexResult "page",
                  number_property synctexResult "x" with
            | Some page, Some x =>
                if negb (truthy page)
                then ([NoCoordinates synctexResult], Exits 1)
                else
                  match number_property synctexResult "y" with
                  | None =>
                      ([TexLine texFile line],
                       Uncaught (TypeError_undefined "toFixed"))
                  | Some y =>
                      let printed := [TexLine texFile line;
                                      PdfCoords page x y] in
                      let pages := (getPageDimensions None (svg_files w)).1 in
                      match pdfToTldrawCoords pages page x y with
                      | Throw e => (printed, Uncaught e)
                      | Normal tldraw =>
                          (printed ++ [TldrawCoords tldraw; Json tldraw x y],
                           Returns)
                      end
                  end
            | _, _ => ([NoCoordinates synctexResult], Exits 1)
            end
        end
  | _ => ([Usage], Exits 1)
  end.

End Reverse.

(** ** SvgDocument.tsx: the pages as the viewer lays them out *)

Module SvgDocument.

Definition pageSpacing : number := of_Z 32.

(** What [doc.querySelector] finds: the three attributes the loader reads
    from the element, [None] for an attribute that is [null]. *)
Record svg_element : Type := {
  viewBox : option string;
  widthAttr : option string;
  heightAttr : option string
}.

(** [new Box(x, y, w, h)] *)
Record Box : Type := { x : number; y : number; w : number; h : number }.

(** The objects pushed on [pages], without the data URL and the two
    identifiers, which come from the browser and from tldraw. *)
Record SvgPage : Type := {
  bounds : Box;
  width : number;
  height : number
}.

(** [Math.max(a, b)] *)
Definition Math_max (a b : number) : number :=
  match a, b with
  | NaN, _ | _, NaN => NaN
  | _, _ => if (a >=? b)%js then a else b
  end.

(** The first part of the loop body of [loadSvgDocument]: the native
    [width] and [height] read from the element, [None] when the text holds
    no svg element.  A string is truthy when it is not empty. *)
Definition nativeSize (svgEl : option svg_element) : number * number :=
  let width := of_Z 600 in
  let height := of_Z 800 in
  match svgEl with
  | None => (width, height)
  | Some el =>
      let '(width, height) :=
        match viewBox el with
        | Some vb =>
            if negb (is_empty vb) then
              match split_spaces vb with
              | [_; _; p2; p3] =>
                  ((parseFloat p2 || width)%js, (parseFloat p3 || height)%js)
              | _ => (width, height)
              end
            else (width, height)
        | None => (width, height)
        end in
      let width :=
        match widthAttr el with
        | Some a =>
            if negb (is_empty a) then
              let w := parseFloat a in
              if negb (isNaN w) then w else width
            else width
        | None => width
        end in
      let height :=
        match heightAttr el with
        | Some a =>
            if negb (is_empty a) then
              let h := parseFloat a in
              if negb (isNaN h) then h else height
            else height
        | None => height
        end in
      (width, height)
  end.

(** The first [for] loop of [loadSvgDocument], entered with the counters
    [top] and [widest]: the pages, all at x = 0, and the final
    [widest]. *)
Fixpoint placePages (svgs : list (option svg_element)) (top widest : number)
  : list SvgPage * number :=
  match svgs with
  | [] => ([], widest)
  | svgEl :: rest =>
      let '(width, height) := nativeSize svgEl in
      let scale := (of_Z 800 / width)%js in
      let width := (width * scale)%js in
      let height := (height * scale)%js in
      let page :=
        {| bounds := {| x := zero; y := top; w := width; h := height |};
           width := width;
           height := height |} in
      let '(pages, widest') :=
        placePages rest (top + (height + pageSpacing))%js
          (Math_max widest width) in
      (page :: pages, widest')
  end.

(** The second [for] loop: every page is centred on the widest one. *)
Definition centre (widest : number) (page : SvgPage) : SvgPage :=
  {| bounds := {| x := ((widest - w (bounds page)) / of_Z 2)%js;
                  y := y (bounds page);
                  w := w (bounds page);
                  h := h (bounds page) |};
     width := width page;
     height := height page |}.

(** The pages of [loadSvgDocument(name, svgUrls)], from the elements parsed
    out of the fetched texts. *)
Definition loadSvgDocument (svgs : list (option svg_element))
  : list SvgPage :=
  let '(pages, widest) := placePages svgs zero zero in
  map (centre widest) pages.

End SvgDocument.

(** ** view-snapshot.mjs: new annotations and their regions *)

Module ViewSnapshot.

Definition PAGE_HEIGHT : number := of_Z 1200.

(** The records of [snapshot.store]; [color] is [record.props?.color]. *)
Record store_record : Type := {
  typeName : string;
  type : string;
  id : string;
  x : number;
  y : number;
  index : string;
  color : option string
}.

(** The objects pushed on [allAnnotations]; its fields are the properties
    [id], [type], [x], [y], [index] and [color]. *)
Record annotation : Type := {
  ann_id : string;
  ann_type : string;
  ann_x : number;
  ann_y : number;
  ann_index : string;
  ann_color : string
}.

(** The loop that collects [allAnnotations]: the shapes that are not
    images, with [unknown] for a colour that is missing or empty. *)
Definition allAnnotations (store : list store_record) : list annotation :=
  map (fun record =>
         {| ann_id := id record;
            ann_type := type record;
            ann_x := x record;
            ann_y := y record;
            ann_index := index record;
            ann_color :=
              match color record with
              | Some c => if is_empty c then "unknown" else c
              | None => "unknown"
              end |})
    (List.filter
       (fun record => String.eqb (typeName record) "shape"
                      && negb (String.eqb (type record) "image"))
       store).

(** [allAnnotations.filter(a => !previousIds.has(a.id))] *)
Definition newAnnotations (previousIds : gset string)
  (all : list annotation) : list annotation :=
  List.filter (fun a => negb (bool_decide (ann_id a ∈ previousIds))) all.

(** [new Set(...)] of what the script saves for its next run:
    [allAnnotations.map(a => a.id)]. *)
Definition savedIds (all : list annotation) : gset string :=
  list_to_set (map ann_id all).

(** The clustering loop, entered with the clusters closed so far, the
    cluster being filled, its last element [prev], and the annotations
    still to read; it ends with the final [clusters.push(currentCluster)]. *)
Fixpoint clusterLoop (clusters : list (list annotation))
  (currentCluster : list annotation) (prev : annotation)
  (rest : list annotation) : list (list annotation) :=
  match rest with
  | [] => clusters ++ [currentCluster]
  | curr :: rest' =>
      if (ann_y curr - ann_y prev <? PAGE_HEIGHT)%js
      then clusterLoop clusters (currentCluster ++ [curr]) curr rest'
      else clusterLoop (clusters ++ [currentCluster]) [curr] curr rest'
  end.

(** The clusters of a sorted array of new annotations that starts with
    [first]; the script leaves before this point when the array is
    empty. *)
Definition clusterAnnotations (first : annotation) (rest : list annotation)
  : list (list annotation) :=
  clusterLoop [] [first] first rest.

End ViewSnapshot.

(** ** The page geometry of the specification *)

(** A finite number, and a finite number above zero. *)
Definition finite (n : number) : Prop := ∃ q : Qc, n = Fin q.
Definition positive (n : number) : Prop := ∃ q : Qc, n = Fin q ∧ (0 < q)%Qc.

(** One page of the data model: positive native sizes, real offsets, the
    scale derived from the target width, and the bottom edge derived from
    the top edge. *)
Record PageGeometry (pg : Lookup.page) : Prop := {
  geometry_width : positive (Lookup.origWidth pg);
  geometry_height : positive (Lookup.origHeight pg);
  geometry_offset_x : finite (Lookup.viewBoxMinX pg);
  geometry_offset_y : finite (Lookup.viewBoxMinY pg);
  geometry_scale :
    Lookup.scale pg = (Lookup.TARGET_WIDTH / Lookup.origWidth pg)%js;
  geometry_top : finite (Lookup.top pg);
  geometry_bottom :
    Lookup.bottom pg
    = (Lookup.top pg + Lookup.origHeight pg * Lookup.scale pg)%js
}.

(** Pages numbered from [k] on and stacked from [t] down, each one
    [PAGE_SPACING] below the one before. *)
Fixpoint stacked_from (k : nat) (t : number) (pages : list Lookup.page)
  : Prop :=
  match pages with
  | [] => True
  | pg :: rest =>
      Lookup.pageNum pg = of_nat k ∧ Lookup.top pg = t ∧ PageGeometry pg ∧
      stacked_from (S k) (Lookup.bottom pg + Lookup.PAGE_SPACING)%js rest
  end.

(** The page-geometry list of the data model: pages 1, 2, ... stacked from
    the canvas origin. *)
Definition page_geometry_list (pages : list Lookup.page) : Prop :=
  stacked_from 1 zero pages.

(** A page of the lookup script as the reverse script stores it. *)
Definition as_reverse (pg : Lookup.page) : Reverse.page :=
  {| Reverse.pageNum := Lookup.pageNum pg;
     Reverse.origWidth := Lookup.origWidth pg;
     Reverse.origHeight := Lookup.origHeight pg;
     Reverse.viewBoxMinX := Lookup.viewBoxMinX pg;
     Reverse.viewBoxMinY := Lookup.viewBoxMinY pg;
     Reverse.scale := Lookup.scale pg;
     Reverse.top := Lookup.top pg;
     Reverse.bottom := Lookup.bottom pg |}.

(** The bands alone: tops and bottoms are finite, every band has a
    positive height, and the next band starts 32 below. *)
Fixpoint bands_from (t : Qc) (pages : list Lookup.page) : Prop :=
  match pages with
  | [] => True
  | pg :: rest =>
      ∃ h : Qc, (0 < h)%Qc ∧ Lookup.top pg = Fin t ∧
        Lookup.bottom pg = Fin (t + h) ∧
        bands_from (t + h + Q2Qc 32) rest
  end.

(** A document of three pages, of native sizes 600 x 800, 600 x 1000 and
    400 x 800, the first with its origin at (-72, -72). *)
Definition sample_files : list string :=
  ["<svg width='600pt' height='800pt' viewBox='-72 -72 600 800'>";
   "<svg viewBox='0 0 600 1000'>";
   "<svg height='800' width='400' viewBox='0 0 400 800'>"].

Definition sample_pages : list Lookup.page :=
  (Lookup.getPageDimensions None sample_files).1.

(** A run with both TeX outputs present and no page file at all. *)
Definition empty_world : Lookup.world :=
  {| Lookup.pdf_exists := true;
     Lookup.synctex_exists := true;
     Lookup.svg_files := [];
     Lookup.snapshot := Some [];
     Lookup.execSync := fun _ _ _ => Returned EmptyString |}.

(** A run on the three sample pages, without a snapshot, with an oracle
    that answers nothing. *)
Definition sample_world : Lookup.world :=
  {| Lookup.pdf_exists := true;
     Lookup.synctex_exists := true;
     Lookup.svg_files := sample_files;
     Lookup.snapshot := None;
     Lookup.execSync := fun _ _ _ => Returned EmptyString |}.

(** The same run with a snapshot that holds the image of a page and one
    drawn annotation. *)
Definition snapshot_world : Lookup.world :=
  {| Lookup.pdf_exists := true;
     Lookup.synctex_exists := true;
     Lookup.svg_files := sample_files;
     Lookup.snapshot :=
       Some [ {| Lookup.typeName := "shape"; Lookup.type := "image";
                 Lookup.id := "shape:page1";
                 Lookup.x := of_Z 0; Lookup.y := of_Z 0;
                 Lookup.color := None |};
              {| Lookup.typeName := "shape"; Lookup.type := "draw";
                 Lookup.id := "shape:a1";
                 Lookup.x := of_Z 120; Lookup.y := of_Z 1300;
                 Lookup.color := Some "red" |} ];
     Lookup.execSync := fun _ _ _ => Returned EmptyString |}.

(** A response line that sets the property [key]. *)
Definition sets_key (key line : string) : Prop :=
  ∃ k v, match_key_value line = Some (k, v) ∧ toLowerCase k = key.

(** A run of the reverse script on the three sample pages, for a TeX file
    that exists and an oracle that answers with the lines [response]. *)
Definition reverse_world (response : list string) : Reverse.world :=
  {| Reverse.tex_exists := fun _ => true;
     Reverse.svg_files := sample_files;
     Reverse.execSync := fun _ _ =>
       Returned (String.concat (String (ascii_of_nat 10) EmptyString)
                   response) |}.

(** The same run with an oracle that fails after writing [response]. *)
Definition failing_reverse_world (response : string) : Reverse.world :=
  {| Reverse.tex_exists := fun _ => true;
     Reverse.svg_files := sample_files;
     Reverse.execSync := fun _ _ => Failed (Some response) "exit status 1" |}.

(** The svg elements of the three sample pages, as a DOM parser hands them
    to the viewer. *)
Definition sample_svgs : list (option SvgDocument.svg_element) :=
  [Some {| SvgDocument.viewBox := Some "-72 -72 600 800";
           SvgDocument.widthAttr := Some "600pt";
           SvgDocument.heightAttr := Some "800pt" |};
   Some {| SvgDocument.viewBox := Some "0 0 600 1000";
           SvgDocument.widthAttr := None;
           SvgDocument.heightAttr := None |};
   Some {| SvgDocument.viewBox := Some "0 0 400 800";
           SvgDocument.widthAttr := Some "400";
           SvgDocument.heightAttr := Some "800" |}].

(** A drawn annotation with the identifier [id] at the height [y]. *)
Definition sample_annotation (id : string) (y : Z)
  : ViewSnapshot.annotation :=
  {| ViewSnapshot.ann_id := id;
     ViewSnapshot.ann_type := "draw";
     ViewSnapshot.ann_x := of_Z 100;
     ViewSnapshot.ann_y := of_Z y;
     ViewSnapshot.ann_index := "a1";
     ViewSnapshot.ann_color := "red" |}.

(** ** Arithmetic of [number] *)

Ltac qc2q :=
  unfold Qclt, Qcle, Qcminus, Qcplus, Qcmult, Qcopp, Q2Qc in *;
  cbn [this] in *;
  repeat (rewrite Qred_correct in * ).

(** Two closed finite numbers are equal when their fractions are. *)
Ltac same_number :=
  apply (f_equal Fin), Qc_is_canon; vm_compute; reflexivity.

Lemma this_inject_Z (z : Z) : this (Q2Qc (inject_Z z)) = inject_Z z.
Proof. simpl. apply Qred_identity. simpl. apply Z.gcd_1_r. Qed.

Lemma of_Z_add (a b : Z) : (of_Z a + of_Z b)%js = of_Z (a + b).
Proof.
  unfold of_Z; simpl. f_equal. apply Qc_is_canon. simpl.
  rewrite !Qred_correct, inject_Z_plus. reflexivity.
Qed.

Lemma of_Z_sub (a b : Z) : (of_Z a - of_Z b)%js = of_Z (a - b).
Proof.
  unfold of_Z, sub; simpl. f_equal. apply Qc_is_canon. simpl.
  rewrite !Qred_correct. unfold Z.sub.
  rewrite inject_Z_plus, inject_Z_opp. reflexivity.
Qed.

Lemma of_nat_succ (n : nat) : (of_nat n + one)%js = of_nat (S n).
Proof.
  unfold of_nat, one. rewrite of_Z_add. f_equal. lia.
Qed.

Lemma of_nat_pred (n : nat) : (of_nat (S n) - one)%js = of_nat n.
Proof.
  unfold of_nat, one. rewrite of_Z_sub. f_equal. lia.
Qed.

Lemma array_get_of_nat {A : Type} (arr : list A) (n : nat) :
  array_get arr (of_nat n) = arr !! n.
Proof.
  unfold array_get, of_nat, of_Z. rewrite this_inject_Z. simpl.
  destruct (Z.of_nat n <? Z.of_nat (length arr))%Z eqn:E.
  - rewrite andb_true_r.
    replace (0 <=? Z.of_nat n)%Z with true by (symmetry; apply Z.leb_le; lia).
    rewrite Nat2Z.id. reflexivity.
  - rewrite andb_false_r. symmetry. apply lookup_ge_None.
    apply Z.ltb_ge in E. lia.
Qed.

Lemma lt_Fin (a b : Qc) : (Fin a <? Fin b)%js = true ↔ (a < b)%Qc.
Proof.
  simpl. rewrite Qclt_alt. destruct (a ?= b)%Qc; split; congruence.
Qed.

Lemma ge_Fin (a b : Qc) : (Fin a >=? Fin b)%js = true ↔ (b <= a)%Qc.
Proof.
  simpl. unfold Qcle. rewrite Qle_alt. unfold Qccompare.
  rewrite <- (Qcompare_antisym a b).
  destruct (a ?= b)%Q; simpl; split; congruence.
Qed.

(** ** The string functions on examples *)

Example match_viewBox_examples :
  match_viewBox "<svg version='1.1' viewBox='-72 -72 612 792'>"
  = Some "-72 -72 612 792"
  ∧ match_viewBox "<svg viewBox=''>" = None
  ∧ match_viewBox "<svg viewBox='0 0 10 10>" = None
  ∧ match_viewBox "<svg viewbox='0 0 10 10'>" = None.
Proof. repeat split. Qed.

(** The width pattern has no word boundary, and its group stops at the
    first character that is neither a digit nor a dot. *)
Example match_width_examples :
  match_width "<svg width='612pt' height='792pt'>" = Some "612"
  ∧ match_height "<svg width='612pt' height='792pt'>" = Some "792"
  ∧ match_width "<path stroke-width='0.4'/>" = Some "0.4"
  ∧ match_width "<svg width='auto'>" = None.
Proof. repeat split. Qed.

Example split_spaces_examples :
  split_spaces "0 0  612 792" = ["0"; "0"; "612"; "792"]
  ∧ split_spaces " 0 0 612 792" = [EmptyString; "0"; "0"; "612"; "792"]
  ∧ split_spaces "0,0,612,792" = ["0,0,612,792"]
  ∧ split_spaces EmptyString = [EmptyString].
Proof. repeat split. Qed.

Example parseFloat_examples :
  parseFloat "612" = of_Z 612
  ∧ parseFloat "  -72.5pt" = Fin (Q2Qc (-145 # 2))
  ∧ parseFloat "1.5e2" = of_Z 150
  ∧ parseFloat ".25" = Fin (Q2Qc (1 # 4))
  ∧ parseFloat "7." = of_Z 7
  ∧ parseFloat "1e" = of_Z 1
  ∧ parseFloat "-Infinity" = NegInf
  ∧ parseFloat "." = NaN
  ∧ parseFloat "px" = NaN
  ∧ parseFloat EmptyString = NaN.
Proof. repeat split; same_number. Qed.

Example parseInt_examples :
  parseInt "42" = of_Z 42
  ∧ parseInt "-1" = of_Z (-1)
  ∧ parseInt " 12.9" = of_Z 12
  ∧ parseInt "0x1f" = of_Z 31
  ∧ parseInt "0x" = NaN
  ∧ parseInt "line" = NaN.
Proof. repeat split. Qed.

Example match_key_value_examples :
  match_key_value "Input:/doc/paper.tex" = Some ("Input", "/doc/paper.tex")
  ∧ match_key_value "Line:42" = Some ("Line", "42")
  ∧ match_key_value "Context:" = None
  ∧ match_key_value "SyncTeX result begin" = None
  ∧ match_key_value "SyncTeX ERROR: no file" = None
  ∧ match_key_value ":42" = None.
Proof. repeat split. Qed.

(** A page whose viewBox has four fields keeps its offsets and sizes; a
    width or height attribute overrides the size, and a field that is zero
    or not a number falls back to its default. *)
Example readPage_examples :
  let p1 := Lookup.readPage "<svg viewBox='-72 -72 612 792'>" one zero in
  let p2 := Lookup.readPage "<svg width='400' viewBox='0 0 612 792'>"
              one zero in
  let p3 := Lookup.readPage "<svg viewBox='a b 0 c'>" one zero in
  (Lookup.viewBoxMinX p1 = of_Z (-72) ∧ Lookup.viewBoxMinY p1 = of_Z (-72) ∧
   Lookup.origWidth p1 = of_Z 612 ∧ Lookup.origHeight p1 = of_Z 792)
  ∧ (Lookup.origWidth p2 = of_Z 400 ∧ Lookup.origHeight p2 = of_Z 792 ∧
     Lookup.scale p2 = of_Z 2)
  ∧ (Lookup.viewBoxMinX p3 = zero ∧ Lookup.viewBoxMinY p3 = zero ∧
     Lookup.origWidth p3 = of_Z 600 ∧ Lookup.origHeight p3 = of_Z 800).
Proof. repeat split; same_number. Qed.

(** ** The two resolvers *)

Lemma readPage_agree (svgContent : string) (pageNum top : number) :
  Reverse.readPage svgContent pageNum top
  = (as_reverse (Lookup.readPage svgContent pageNum top),
     Lookup.scaledHeight (Lookup.readPage svgContent pageNum top)).
Proof.
  unfold Reverse.readPage, Lookup.readPage, as_reverse.
  destruct (match_viewBox svgContent) as [group|]; [|reflexivity].
  destruct (split_spaces group) as [|p0 [|p1 [|p2 [|p3 [|p4 ps]]]]];
    reflexivity.
Qed.

Lemma readPages_agree (files : list string) (pageNum top : number) :
  Reverse.readPages files pageNum top
  = map as_reverse (Lookup.readPages files pageNum top).
Proof.
  revert pageNum top.
  induction files as [|svgContent rest IH]; intros pageNum top; [reflexivity|].
  cbn [Reverse.readPages Lookup.readPages map].
  rewrite readPage_agree. f_equal. apply IH.
Qed.

(** C10. The resolver of the reverse script and the resolver of the lookup
    script, started in a fresh process on the same page files, build the
    same pages: every page of the one is the page of the other with the
    same pageNum, origWidth, origHeight, viewBoxMinX, viewBoxMinY, scale,
    top and bottom. *)
Theorem resolvers_agree (files : list string) :
  (Reverse.getPageDimensions None files).1
  = map as_reverse (Lookup.getPageDimensions None files).1.
Proof.
  unfold Reverse.getPageDimensions, Lookup.getPageDimensions.
  cbn [fst]. apply readPages_agree.
Qed.

(** Later calls in the same process return the list of the first call,
    whatever the files have become. *)
Lemma getPageDimensions_cached (files files' : list string) :
  let '(pages, pageCache) := Lookup.getPageDimensions None files in
  Lookup.getPageDimensions pageCache files' = (pages, pageCache).
Proof. reflexivity. Qed.

Lemma readPages_lookup (files : list string) (i : nat) (svgContent : string) :
  files !! i = Some svgContent →
  ∀ pageNum top, ∃ pageNum' top',
    Lookup.readPages files pageNum top !! i
    = Some (Lookup.readPage svgContent pageNum' top').
Proof.
  revert i. induction files as [|f rest IH]; intros i Hi pageNum top.
  - rewrite lookup_nil in Hi. discriminate.
  - destruct i as [|i]; cbn [Lookup.readPages].
    + injection Hi as ->. eauto.
    + apply (IH i Hi).
Qed.

Lemma default_scale :
  (Lookup.TARGET_WIDTH / of_Z 600)%js = Fin (Q2Qc (4 # 3)).
Proof.
  unfold Lookup.TARGET_WIDTH, of_Z. cbn. f_equal. apply Qc_is_canon.
  reflexivity.
Qed.

(** C8. A page file in which neither the viewBox pattern nor the width and
    height patterns match gets the default native size: origWidth 600 and
    origHeight 800 with a zero origin offset, hence the scale 800/600. *)
Theorem default_page_size (files : list string) (i : nat)
  (svgContent : string) :
  files !! i = Some svgContent →
  match_viewBox svgContent = None →
  match_width svgContent = None →
  match_height svgContent = None →
  ∃ pg, (Lookup.getPageDimensions None files).1 !! i = Some pg ∧
    Lookup.origWidth pg = of_Z 600 ∧
    Lookup.origHeight pg = of_Z 800 ∧
    Lookup.viewBoxMinX pg = zero ∧
    Lookup.viewBoxMinY pg = zero ∧
    Lookup.scale pg = (of_Z 800 / of_Z 600)%js ∧
    Lookup.scale pg = Fin (Q2Qc (4 # 3)).
Proof.
  intros Hi HviewBox Hwidth Hheight.
  destruct (readPages_lookup files i svgContent Hi one zero)
    as (pageNum & top & Hpg).
  exists (Lookup.readPage svgContent pageNum top).
  split; [exact Hpg|].
  unfold Lookup.readPage. rewrite HviewBox, Hwidth, Hheight.
  cbn [Lookup.origWidth Lookup.origHeight Lookup.viewBoxMinX
       Lookup.viewBoxMinY Lookup.scale].
  repeat split; try reflexivity. apply default_scale.
Qed.

Lemma default_page_size_witness :
  ∃ pg, (Lookup.getPageDimensions None
           ["<svg viewBox='0 0 612 792'>"; "<svg xmlns='none'></svg>"]).1
        !! 1%nat = Some pg ∧
    Lookup.origWidth pg = of_Z 600 ∧
    Lookup.origHeight pg = of_Z 800 ∧
    Lookup.viewBoxMinX pg = zero ∧
    Lookup.viewBoxMinY pg = zero ∧
    Lookup.scale pg = (of_Z 800 / of_Z 600)%js ∧
    Lookup.scale pg = Fin (Q2Qc (4 # 3)).
Proof.
  apply (default_page_size _ 1 "<svg xmlns='none'></svg>");
    vm_compute; reflexivity.
Defined.

(** ** Document to canvas *)

Lemma pages_index {A : Type} (arr : list A) (p : nat) :
  array_get arr (of_nat p - one)%js
  = match p with O => None | S k => arr !! k end.
Proof.
  destruct p as [|k].
  - reflexivity.
  - rewrite of_nat_pred. apply array_get_of_nat.
Qed.

(** C5. For a list of N pages, [pdfToTldrawCoords] throws the page-not-found
    error for the page number 0 and for every page number above N, and
    returns a coordinate for every page number from 1 to N. *)
Theorem unknown_page (pages : list Reverse.page) (p : nat)
  (pdfX pdfY : number) :
  (p = 0%nat ∨ (length pages < p)%nat →
   Reverse.pdfToTldrawCoords pages (of_nat p) pdfX pdfY
   = Throw (Error_page_not_found (of_nat p)))
  ∧
  ((1 <= p)%nat ∧ (p <= length pages)%nat →
   ∃ c, Reverse.pdfToTldrawCoords pages (of_nat p) pdfX pdfY = Normal c).
Proof.
  unfold Reverse.pdfToTldrawCoords. rewrite pages_index. split.
  - intros [-> | Hp]; [reflexivity|].
    destruct p as [|k]; [reflexivity|].
    rewrite (proj2 (lookup_ge_None pages k)) by lia. reflexivity.
  - intros [H1 HN]. destruct p as [|k]; [lia|].
    destruct (lookup_lt_is_Some_2 pages k) as [pg Hpg]; [lia|].
    rewrite Hpg. eauto.
Qed.

Lemma unknown_page_witness :
  Reverse.pdfToTldrawCoords (map as_reverse sample_pages) (of_nat 0)
    (of_Z 10) (of_Z 20) = Throw (Error_page_not_found (of_nat 0))
  ∧ Reverse.pdfToTldrawCoords (map as_reverse sample_pages) (of_nat 4)
      (of_Z 10) (of_Z 20) = Throw (Error_page_not_found (of_nat 4))
  ∧ ∃ c, Reverse.pdfToTldrawCoords (map as_reverse sample_pages) (of_nat 3)
           (of_Z 10) (of_Z 20) = Normal c.
Proof.
  split; [|split].
  - apply (unknown_page (map as_reverse sample_pages) 0). left. reflexivity.
  - apply (unknown_page (map as_reverse sample_pages) 4). right.
    vm_compute. lia.
  - apply (unknown_page (map as_reverse sample_pages) 3).
    vm_compute. split; lia.
Defined.

(** ** Canvas to document *)

Lemma findPageForY_nonempty (pages : list Lookup.page) (y : number) :
  pages ≠ [] → ∃ pg, Lookup.findPageForY pages y = Some pg.
Proof.
  intros Hne. unfold Lookup.findPageForY.
  destruct (Lookup.findPageForY_loop pages y) as [pg|]; [eauto|].
  destruct pages as [|p0 rest]; [congruence|].
  cbn [length]. rewrite of_nat_pred, array_get_of_nat.
  apply lookup_lt_is_Some_2. cbn [length]. lia.
Qed.

(** C3. On a non-empty list, [tldrawToPdfCoords] returns for the page [pg]
    that [findPageForY] selects for [tlY]: the page number of [pg],
    [pdfX = tlX / pg.scale + pg.viewBoxMinX] and
    [pdfY = (tlY - pg.top) / pg.scale + pg.viewBoxMinY]. *)
Theorem canvas_to_document (pages : list Lookup.page) (tlX tlY : number) :
  pages ≠ [] →
  ∃ pg r,
    Lookup.findPageForY pages tlY = Some pg ∧
    Lookup.tldrawToPdfCoords pages tlX tlY = Normal r ∧
    Lookup.page_of r = Lookup.pageNum pg ∧
    Lookup.pdfX r = (tlX / Lookup.scale pg + Lookup.viewBoxMinX pg)%js ∧
    Lookup.pdfY r
    = ((tlY - Lookup.top pg) / Lookup.scale pg + Lookup.viewBoxMinY pg)%js.
Proof.
  intros Hne. destruct (findPageForY_nonempty pages tlY Hne) as [pg Hpg].
  exists pg. unfold Lookup.tldrawToPdfCoords. rewrite Hpg.
  eexists. repeat split.
Qed.

Lemma canvas_to_document_witness :
  sample_pages ≠ [] ∧
  ∃ pg r,
    Lookup.findPageForY sample_pages (of_Z 1200) = Some pg ∧
    Lookup.tldrawToPdfCoords sample_pages (of_Z 50) (of_Z 1200) = Normal r ∧
    Lookup.page_of r = Lookup.pageNum pg ∧
    Lookup.pdfX r = (of_Z 50 / Lookup.scale pg + Lookup.viewBoxMinX pg)%js ∧
    Lookup.pdfY r
    = ((of_Z 1200 - Lookup.top pg) / Lookup.scale pg
       + Lookup.viewBoxMinY pg)%js.
Proof.
  assert (Hne : sample_pages ≠ []) by (vm_compute; discriminate).
  split; [exact Hne|].
  exact (canvas_to_document sample_pages (of_Z 50) (of_Z 1200) Hne).
Defined.

(** ** Comparisons against finite bounds *)

Lemma Qc_sgn_pos (q : Qc) : (0 < q)%Qc → Qc_sgn q = Gt.
Proof. intros H. unfold Qc_sgn. apply Qcgt_alt. exact H. Qed.

Lemma div_Fin (a s : Qc) : (0 < s)%Qc → (Fin a / Fin s)%js = Fin (a / s).
Proof. intros H. unfold div. rewrite (Qc_sgn_pos s H). reflexivity. Qed.

Lemma Qcdiv_pos (a s : Qc) : (0 < a)%Qc → (0 < s)%Qc → (0 < a / s)%Qc.
Proof.
  intros Ha Hs. unfold Qcdiv, Qcinv. qc2q.
  apply Qmult_lt_0_compat; [exact Ha|]. apply Qinv_lt_0_compat. exact Hs.
Qed.

Lemma Qcpos_nonzero (s : Qc) : (0 < s)%Qc → s ≠ Q2Qc 0.
Proof. intros Hs ->. exact (Qlt_irrefl _ Hs). Qed.

Lemma Qcmult_pos (a b : Qc) : (0 < a)%Qc → (0 < b)%Qc → (0 < a * b)%Qc.
Proof. intros Ha Hb. qc2q. apply Qmult_lt_0_compat; assumption. Qed.

Lemma in_band_bounds (pg : Lookup.page) (y : number) (a b : Qc) :
  Lookup.top pg = Fin a → Lookup.bottom pg = Fin b →
  Lookup.in_band pg y = true →
  ∃ v : Qc, y = Fin v ∧ (a <= v)%Qc ∧ (v < b)%Qc.
Proof.
  unfold Lookup.in_band. intros -> -> H.
  apply andb_true_iff in H as [Hge Hlt].
  destruct y as [v| | |]; try discriminate.
  exists v. split; [reflexivity|]. split.
  - apply ge_Fin, Hge.
  - apply lt_Fin, Hlt.
Qed.

Lemma below_top_not_in_band (pg : Lookup.page) (y : number) (a c : Qc) :
  Lookup.top pg = Fin a → (y <? Fin c)%js = true → (c <= a)%Qc →
  Lookup.in_band pg y = false.
Proof.
  unfold Lookup.in_band. intros -> Hlt Hca.
  apply andb_false_iff. left.
  destruct y as [v| | |]; try reflexivity; try discriminate.
  apply lt_Fin in Hlt. apply not_true_is_false. intros Hge.
  apply ge_Fin in Hge. qc2q. lra.
Qed.

Lemma above_bottom_not_in_band (pg : Lookup.page) (y : number) (b c : Qc) :
  Lookup.bottom pg = Fin b → (y >=? Fin c)%js = true → (b <= c)%Qc →
  Lookup.in_band pg y = false.
Proof.
  unfold Lookup.in_band. intros -> Hge Hbc.
  apply andb_false_iff. right.
  destruct y as [v| | |]; try reflexivity; try discriminate.
  apply ge_Fin in Hge. apply not_true_is_false. intros Hlt.
  apply lt_Fin in Hlt. qc2q. lra.
Qed.

(** ** Bands *)

Lemma bands_from_lookup (pages : list Lookup.page) (t : Qc) (i : nat)
  (pg : Lookup.page) :
  bands_from t pages → pages !! i = Some pg →
  ∃ a h : Qc, (t <= a)%Qc ∧ (0 < h)%Qc ∧
    Lookup.top pg = Fin a ∧ Lookup.bottom pg = Fin (a + h) ∧
    bands_from (a + h + Q2Qc 32) (drop (S i) pages).
Proof.
  revert t i. induction pages as [|p0 rest IH]; intros t i Hb Hi.
  - rewrite lookup_nil in Hi. discriminate.
  - destruct Hb as (h & Hh & Htop & Hbottom & Hrest).
    destruct i as [|i].
    + injection Hi as <-. exists t, h. repeat split; try assumption.
      apply Qcle_refl.
    + destruct (IH _ i Hrest Hi) as (a & h' & Hta & Hh' & Ht' & Hb' & Hd).
      exists a, h'. repeat split; try assumption.
      qc2q. lra.
Qed.

(** A page after position [i] starts at least 32 below the bottom of the
    page at [i]. *)
Lemma bands_from_order (pages : list Lookup.page) (t : Qc) (i j : nat)
  (pi pj : Lookup.page) :
  bands_from t pages → (i < j)%nat →
  pages !! i = Some pi → pages !! j = Some pj →
  ∃ ai bi aj bj : Qc,
    Lookup.top pi = Fin ai ∧ Lookup.bottom pi = Fin bi ∧
    Lookup.top pj = Fin aj ∧ Lookup.bottom pj = Fin bj ∧
    (ai < bi)%Qc ∧ (bi + Q2Qc 32 <= aj)%Qc ∧ (aj < bj)%Qc.
Proof.
  intros Hb Hij Hi Hj.
  destruct (bands_from_lookup pages t i pi Hb Hi)
    as (ai & hi & _ & Hhi & Hti & Hbi & Hdrop).
  assert (Hj' : drop (S i) pages !! (j - S i)%nat = Some pj).
  { rewrite lookup_drop. replace (S i + (j - S i))%nat with j by lia.
    exact Hj. }
  destruct (bands_from_lookup _ _ _ pj Hdrop Hj')
    as (aj & hj & Hle & Hhj & Htj & Hbj & _).
  exists ai, (ai + hi)%Qc, aj, (aj + hj)%Qc.
  repeat split; try assumption; qc2q; lra.
Qed.

(** ** The page lookup *)

(** The forward scan returns the first page whose band holds [y]. *)
Lemma findPageForY_first (before after : list Lookup.page)
  (pg : Lookup.page) (y : number) :
  (∀ q, q ∈ before → Lookup.in_band q y = false) →
  Lookup.in_band pg y = true →
  Lookup.findPageForY (before ++ pg :: after) y = Some pg.
Proof.
  intros Hbefore Hpg. unfold Lookup.findPageForY.
  assert (Hloop : Lookup.findPageForY_loop (before ++ pg :: after) y
                  = Some pg).
  { induction before as [|q before IH]; cbn.
    - rewrite Hpg. reflexivity.
    - rewrite (Hbefore q) by (left; reflexivity).
      apply IH. intros q' Hq'. apply Hbefore. right. exact Hq'. }
  rewrite Hloop. reflexivity.
Qed.

(** When no band holds [y] the lookup falls back to the last page. *)
Lemma findPageForY_fallback (pages : list Lookup.page) (y : number) :
  (∀ q, q ∈ pages → Lookup.in_band q y = false) →
  Lookup.findPageForY pages y = last pages.
Proof.
  intros Hnone. unfold Lookup.findPageForY.
  assert (Hloop : Lookup.findPageForY_loop pages y = None).
  { induction pages as [|q rest IH]; cbn; [reflexivity|].
    rewrite (Hnone q) by (left; reflexivity).
    apply IH. intros q' Hq'. apply Hnone. right. exact Hq'. }
  rewrite Hloop. destruct pages as [|p0 rest]; [reflexivity|].
  cbn [length]. rewrite of_nat_pred, array_get_of_nat.
  rewrite last_lookup. reflexivity.
Qed.

(** In stacked bands the page whose band holds [y] is the one found. *)
Lemma findPageForY_in_band (pages : list Lookup.page) (t : Qc) (k : nat)
  (pg : Lookup.page) (y : number) :
  bands_from t pages → pages !! k = Some pg →
  Lookup.in_band pg y = true →
  Lookup.findPageForY pages y = Some pg.
Proof.
  intros Hb Hk Hin.
  rewrite <- (take_drop_middle pages k pg Hk).
  apply findPageForY_first; [|exact Hin].
  intros q Hq. apply list_elem_of_lookup in Hq as [m Hm].
  assert (Hmk : (m < k)%nat).
  { apply lookup_lt_Some in Hm. rewrite length_take in Hm. lia. }
  rewrite lookup_take_lt in Hm by exact Hmk.
  destruct (bands_from_order pages t m k q pg Hb Hmk Hm Hk)
    as (am & bm & ak & bk & Htm & Hbm & Htk & Hbk & H1 & H2 & H3).
  destruct (in_band_bounds pg y ak bk Htk Hbk Hin) as (v & -> & Hv1 & Hv2).
  apply (above_bottom_not_in_band q (Fin v) bm v Hbm).
  - apply ge_Fin. apply Qcle_refl.
  - qc2q. lra.
Qed.

(** ** From the data model and from the resolver to bands *)

Lemma sized_band (pg : Lookup.page) (t : Qc) :
  positive (Lookup.origWidth pg) → positive (Lookup.origHeight pg) →
  Lookup.scale pg = (Lookup.TARGET_WIDTH / Lookup.origWidth pg)%js →
  Lookup.bottom pg
  = (Lookup.top pg + Lookup.origHeight pg * Lookup.scale pg)%js →
  Lookup.top pg = Fin t →
  ∃ h s : Qc, (0 < h)%Qc ∧ (0 < s)%Qc ∧ Lookup.scale pg = Fin s ∧
    (Lookup.origHeight pg * Lookup.scale pg)%js = Fin h ∧
    Lookup.bottom pg = Fin (t + h).
Proof.
  intros (w & Hw & Hwpos) (h & Hh & Hhpos) Hscale Hbottom Htop.
  rewrite Hw in Hscale. unfold Lookup.TARGET_WIDTH, of_Z in Hscale.
  rewrite div_Fin in Hscale by exact Hwpos.
  set (s := (Q2Qc (inject_Z 800) / w)%Qc) in *.
  assert (Hs : (0 < s)%Qc) by (apply Qcdiv_pos; [reflexivity | exact Hwpos]).
  exists (h * s)%Qc, s. split; [apply Qcmult_pos; assumption|].
  split; [exact Hs|]. split; [exact Hscale|].
  rewrite Hbottom, Htop, Hh, Hscale. split; reflexivity.
Qed.

Lemma page_band (pg : Lookup.page) (t : Qc) :
  PageGeometry pg → Lookup.top pg = Fin t →
  ∃ h s : Qc, (0 < h)%Qc ∧ (0 < s)%Qc ∧ Lookup.scale pg = Fin s ∧
    Lookup.bottom pg = Fin (t + h).
Proof.
  intros [Hw Hh _ _ Hscale _ Hbottom] Htop.
  destruct (sized_band pg t Hw Hh Hscale Hbottom Htop)
    as (h & s & H1 & H2 & H3 & _ & H4).
  exists h, s. auto.
Qed.

Lemma stacked_bands (pages : list Lookup.page) (k : nat) (t : Qc) :
  stacked_from k (Fin t) pages → bands_from t pages.
Proof.
  revert k t. induction pages as [|pg rest IH]; intros k t H; [exact I|].
  destruct H as (_ & Htop & Hpg & Hrest).
  destruct (page_band pg t Hpg Htop) as (h & s & Hh & _ & _ & Hbottom).
  exists h. repeat split; try assumption.
  apply (IH (S k)). rewrite Hbottom in Hrest. exact Hrest.
Qed.

Lemma readPage_fields (svgContent : string) (pageNum top : number) :
  let pg := Lookup.readPage svgContent pageNum top in
  Lookup.pageNum pg = pageNum ∧ Lookup.top pg = top ∧
  Lookup.scale pg = (Lookup.TARGET_WIDTH / Lookup.origWidth pg)%js ∧
  Lookup.scaledHeight pg = (Lookup.origHeight pg * Lookup.scale pg)%js ∧
  Lookup.bottom pg = (top + Lookup.scaledHeight pg)%js.
Proof.
  unfold Lookup.readPage.
  destruct (match_viewBox svgContent) as [group|]; [|repeat split].
  destruct (split_spaces group) as [|p0 [|p1 [|p2 [|p3 [|p4 ps]]]]];
    repeat split.
Qed.

(** One turn of the resolver loop on a page whose native sizes come out
    positive: the band has a positive height, and the next top is the
    bottom plus the spacing. *)
Lemma readPage_band (svgContent : string) (pageNum : number) (t : Qc) :
  let pg := Lookup.readPage svgContent pageNum (Fin t) in
  positive (Lookup.origWidth pg) → positive (Lookup.origHeight pg) →
  ∃ h : Qc, (0 < h)%Qc ∧ Lookup.bottom pg = Fin (t + h) ∧
    (Fin t + (Lookup.scaledHeight pg + Lookup.PAGE_SPACING))%js
    = Fin (t + h + Q2Qc 32).
Proof.
  intros pg Hw Hh.
  destruct (readPage_fields svgContent pageNum (Fin t))
    as (_ & Htop & Hscale & Hsh & Hbottom).
  fold pg in Htop, Hscale, Hsh, Hbottom.
  rewrite Hsh, <- Htop in Hbottom.
  destruct (sized_band pg t Hw Hh Hscale Hbottom Htop)
    as (h & s & Hhpos & _ & _ & Hheight & Hb).
  exists h. split; [exact Hhpos|]. split; [exact Hb|].
  rewrite Hsh, Hheight. cbn. f_equal. apply Qcplus_assoc.
Qed.

Lemma readPages_bands (files : list string) (pageNum : number) (t : Qc) :
  (∀ pg, pg ∈ Lookup.readPages files pageNum (Fin t) →
     positive (Lookup.origWidth pg) ∧ positive (Lookup.origHeight pg)) →
  bands_from t (Lookup.readPages files pageNum (Fin t)).
Proof.
  revert pageNum t.
  induction files as [|f rest IH]; intros pageNum t Hall; [exact I|].
  cbn [Lookup.readPages] in *.
  set (pg := Lookup.readPage f pageNum (Fin t)) in *.
  destruct (Hall pg) as (Hw & Hh); [left; reflexivity|].
  destruct (readPage_band f pageNum t Hw Hh) as (h & Hhpos & Hb & Hnext).
  fold pg in Hb, Hnext. rewrite Hnext in *.
  destruct (readPage_fields f pageNum (Fin t)) as (_ & Htop & _).
  exists h. split; [exact Hhpos|]. split; [exact Htop|]. split; [exact Hb|].
  apply IH. intros pg' Hpg'. apply Hall. right. exact Hpg'.
Qed.

(** The resolver builds a page-geometry list, provided the native sizes it
    reads come out positive and the offsets finite. *)
Lemma readPages_stacked (files : list string) (k : nat) (t : Qc) :
  (∀ pg, pg ∈ Lookup.readPages files (of_nat k) (Fin t) →
     positive (Lookup.origWidth pg) ∧ positive (Lookup.origHeight pg) ∧
     finite (Lookup.viewBoxMinX pg) ∧ finite (Lookup.viewBoxMinY pg)) →
  stacked_from k (Fin t) (Lookup.readPages files (of_nat k) (Fin t)).
Proof.
  revert k t. induction files as [|f rest IH]; intros k t Hall; [exact I|].
  cbn [Lookup.readPages] in *.
  set (pg := Lookup.readPage f (of_nat k) (Fin t)) in *.
  destruct (readPage_fields f (of_nat k) (Fin t))
    as (Hnum & Htop & Hscale & Hsh & Hbottom).
  fold pg in Hnum, Htop, Hscale, Hsh, Hbottom.
  destruct (Hall pg) as (Hw & Hh & Hx & Hy); [left; reflexivity|].
  destruct (readPage_band f (of_nat k) t Hw Hh) as (h & _ & Hb & Hnext).
  fold pg in Hb, Hnext. rewrite Hnext, of_nat_succ in *.
  split; [exact Hnum|]. split; [exact Htop|]. split.
  - constructor; try assumption.
    + rewrite Htop. eexists. reflexivity.
    + rewrite Hbottom, Htop, Hsh. reflexivity.
  - rewrite Hb. cbn. apply IH.
    intros pg' Hpg'. apply Hall. right. exact Hpg'.
Qed.

Lemma resolver_page_geometry (files : list string) :
  (∀ pg, pg ∈ (Lookup.getPageDimensions None files).1 →
     positive (Lookup.origWidth pg) ∧ positive (Lookup.origHeight pg) ∧
     finite (Lookup.viewBoxMinX pg) ∧ finite (Lookup.viewBoxMinY pg)) →
  page_geometry_list (Lookup.getPageDimensions None files).1.
Proof.
  intros Hall. apply (readPages_stacked files 1 (Q2Qc 0)). exact Hall.
Qed.

(** ** Points outside every band *)

Section outside.
Variables (pages : list Lookup.page) (t : Qc) (y : number).
Hypothesis Hbands : bands_from t pages.

(** A point at or below the bottom of the page at [i] is in no band up
    to [i]. *)
Lemma not_in_band_upto (i m : nat) (pi q : Lookup.page) :
  pages !! i = Some pi → (y >=? Lookup.bottom pi)%js = true →
  (m <= i)%nat → pages !! m = Some q → Lookup.in_band q y = false.
Proof.
  intros Hi Hy Hmi Hm.
  destruct (bands_from_lookup pages t i pi Hbands Hi)
    as (ai & hi & _ & Hhi & Hti & Hbi & _).
  rewrite Hbi in Hy.
  destruct (decide (m = i)) as [->|Hne].
  - rewrite Hi in Hm. injection Hm as <-.
    apply (above_bottom_not_in_band pi y _ _ Hbi Hy). apply Qcle_refl.
  - destruct (bands_from_order pages t m i q pi Hbands ltac:(lia) Hm Hi)
      as (am & bm & ai' & bi' & Htm & Hbm & Hti' & Hbi' & H1 & H2 & H3).
    rewrite Hti in Hti'. injection Hti' as <-.
    rewrite Hbi in Hbi'. injection Hbi' as <-.
    apply (above_bottom_not_in_band q y _ _ Hbm Hy). qc2q. lra.
Qed.

(** A point above the top of the page at [j] is in no band from [j]
    on. *)
Lemma not_in_band_from (j m : nat) (pj q : Lookup.page) :
  pages !! j = Some pj → (y <? Lookup.top pj)%js = true →
  (j <= m)%nat → pages !! m = Some q → Lookup.in_band q y = false.
Proof.
  intros Hj Hy Hjm Hm.
  destruct (bands_from_lookup pages t j pj Hbands Hj)
    as (aj & hj & _ & Hhj & Htj & Hbj & _).
  rewrite Htj in Hy.
  destruct (decide (m = j)) as [->|Hne].
  - rewrite Hj in Hm. injection Hm as <-.
    apply (below_top_not_in_band pj y _ _ Htj Hy). apply Qcle_refl.
  - destruct (bands_from_order pages t j m pj q Hbands ltac:(lia) Hj Hm)
      as (aj' & bj' & am & bm & Htj' & Hbj' & Htm & Hbm & H1 & H2 & H3).
    rewrite Htj in Htj'. injection Htj' as <-.
    apply (below_top_not_in_band q y _ _ Htm Hy). qc2q. lra.
Qed.

Lemma gap_not_in_band (i : nat) (pi pj : Lookup.page) :
  pages !! i = Some pi → pages !! S i = Some pj →
  (y >=? Lookup.bottom pi)%js = true → (y <? Lookup.top pj)%js = true →
  ∀ q, q ∈ pages → Lookup.in_band q y = false.
Proof.
  intros Hi Hj Hge Hlt q Hq.
  apply list_elem_of_lookup in Hq as [m Hm].
  destruct (le_lt_dec m i) as [Hmi|Hmi].
  - exact (not_in_band_upto i m pi q Hi Hge Hmi Hm).
  - exact (not_in_band_from (S i) m pj q Hj Hlt Hmi Hm).
Qed.

Lemma beyond_not_in_band (lastPage : Lookup.page) :
  last pages = Some lastPage →
  (y >=? Lookup.bottom lastPage)%js = true →
  ∀ q, q ∈ pages → Lookup.in_band q y = false.
Proof.
  intros Hlast Hge q Hq. rewrite last_lookup in Hlast.
  apply list_elem_of_lookup in Hq as [m Hm].
  apply (not_in_band_upto _ m lastPage q Hlast Hge); [|exact Hm].
  apply lookup_lt_Some in Hm. lia.
Qed.

Lemma before_not_in_band (firstPage : Lookup.page) :
  pages !! 0%nat = Some firstPage →
  (y <? Lookup.top firstPage)%js = true →
  ∀ q, q ∈ pages → Lookup.in_band q y = false.
Proof.
  intros Hfirst Hlt q Hq.
  apply list_elem_of_lookup in Hq as [m Hm].
  apply (not_in_band_from 0 m firstPage q Hfirst Hlt); [lia|exact Hm].
Qed.
End outside.

(** ** The running example *)

Lemma sample_pages_sizes :
  ∀ pg, pg ∈ sample_pages →
    positive (Lookup.origWidth pg) ∧ positive (Lookup.origHeight pg) ∧
    finite (Lookup.viewBoxMinX pg) ∧ finite (Lookup.viewBoxMinY pg).
Proof.
  intros pg Hpg. apply list_elem_of_lookup in Hpg as [i Hi].
  destruct i as [|[|[|i]]]; vm_compute in Hi; try discriminate;
    injection Hi as <-; vm_compute;
    (split; [eexists; split; reflexivity|]);
    (split; [eexists; split; reflexivity|]);
    split; eexists; reflexivity.
Qed.

Lemma sample_pages_geometry : page_geometry_list sample_pages.
Proof. apply resolver_page_geometry. exact sample_pages_sizes. Qed.

(** The canvas tops of the three pages: 0, 800 * (800/600) + 32 and
    that plus 1000 * (800/600) + 32, which is 2464. *)
Example sample_tops :
  map Lookup.top sample_pages
  = [of_Z 0; Fin (Q2Qc (3296 # 3)); of_Z 2464].
Proof.
  unfold of_Z.
  repeat (apply (f_equal2 cons); [same_number|]). reflexivity.
Qed.

(** ** The layout the resolver builds *)



(** The condition on the sizes is needed.  A width attribute is taken as
    it is read, without the fallback the viewBox fields have: after a page
    declared with width 0 the scale is infinite, and the tops that follow
    are not numbers. *)
Example zero_width_page :
  let pages :=
    (Lookup.getPageDimensions None
       ["<svg width='0pt' height='0pt' viewBox='0 0 0 0'>";
        "<svg viewBox='0 0 600 800'>"]).1 in
  map Lookup.origWidth pages = [of_Z 0; of_Z 600]
  ∧ map Lookup.scale pages = [PosInf; Fin (Q2Qc (4 # 3))]
  ∧ map Lookup.top pages = [of_Z 0; NaN].
Proof.
  repeat split; vm_compute;
    repeat (apply (f_equal2 cons); [try same_number; reflexivity|]);
    reflexivity.
Qed.

(** ** The page selected for a canvas point *)

(** C4. On a page-geometry list whose last page is [lastPage]: the lookup
    returns the first page, in list order, whose band [top, bottom) holds
    [y]; and when [y] lies in the gap between the bottom of a page and the
    top of the next, or at or beyond the bottom of the last page, the
    lookup returns the last page and the conversion returns normally, for
    that page. *)
Theorem page_lookup_policy (pages : list Lookup.page)
  (lastPage : Lookup.page) (tlX y : number) :
  page_geometry_list pages →
  last pages = Some lastPage →
  (∀ before pg after,
     pages = before ++ pg :: after →
     (∀ q, q ∈ before → Lookup.in_band q y = false) →
     Lookup.in_band pg y = true →
     Lookup.findPageForY pages y = Some pg)
  ∧ ((∃ i pi pj, pages !! i = Some pi ∧ pages !! S i = Some pj ∧
                 (y >=? Lookup.bottom pi)%js = true ∧
                 (y <? Lookup.top pj)%js = true)
     ∨ (y >=? Lookup.bottom lastPage)%js = true →
     Lookup.findPageForY pages y = Some lastPage ∧
     ∃ r, Lookup.tldrawToPdfCoords pages tlX y = Normal r ∧
          Lookup.page_of r = Lookup.pageNum lastPage).
Proof.
  intros Hwf Hlast.
  assert (Hbands : bands_from (Q2Qc 0) pages)
    by exact (stacked_bands pages 1 _ Hwf).
  split.
  - intros before pg after -> Hbefore Hpg.
    apply findPageForY_first; assumption.
  - intros Hout.
    assert (Hnone : ∀ q, q ∈ pages → Lookup.in_band q y = false).
    { destruct Hout as [(i & pi & pj & Hi & Hj & Hge & Hlt) | Hge].
      - exact (gap_not_in_band pages _ y Hbands i pi pj Hi Hj Hge Hlt).
      - exact (beyond_not_in_band pages _ y Hbands lastPage Hlast Hge). }
    assert (Hfound : Lookup.findPageForY pages y = Some lastPage)
      by (rewrite (findPageForY_fallback pages y Hnone); exact Hlast).
    split; [exact Hfound|].
    unfold Lookup.tldrawToPdfCoords. rewrite Hfound.
    eexists. split; reflexivity.
Qed.

Lemma page_lookup_policy_witness :
  ∃ p1 p2 lastPage,
    page_geometry_list sample_pages ∧
    last sample_pages = Some lastPage ∧
    sample_pages !! 0%nat = Some p1 ∧
    sample_pages !! 1%nat = Some p2 ∧
    (of_Z 1080 >=? Lookup.bottom p1)%js = true ∧
    (of_Z 1080 <? Lookup.top p2)%js = true ∧
    Lookup.findPageForY sample_pages (of_Z 1080) = Some lastPage ∧
    (∃ r, Lookup.tldrawToPdfCoords sample_pages (of_Z 50) (of_Z 1080)
          = Normal r ∧
          Lookup.page_of r = Lookup.pageNum lastPage).
Proof.
  destruct (sample_pages !! 0%nat) as [p1|] eqn:H1; [|discriminate].
  destruct (sample_pages !! 1%nat) as [p2|] eqn:H2; [|discriminate].
  destruct (last sample_pages) as [lastPage|] eqn:Hlast; [|discriminate].
  assert (Hge : (of_Z 1080 >=? Lookup.bottom p1)%js = true).
  { vm_compute in H1. injection H1 as <-. vm_compute. reflexivity. }
  assert (Hlt : (of_Z 1080 <? Lookup.top p2)%js = true).
  { vm_compute in H2. injection H2 as <-. vm_compute. reflexivity. }
  destruct (page_lookup_policy sample_pages lastPage (of_Z 50) (of_Z 1080)
              sample_pages_geometry Hlast) as [_ Hout].
  destruct Hout as [Hfound Hr].
  { left. exists 0%nat, p1, p2. auto. }
  exists p1, p2, lastPage.
  split; [exact sample_pages_geometry|].
  repeat (split; [assumption || reflexivity|]). exact Hr.
Defined.

(** C9. On a page-geometry list, a canvas [y] strictly less than the top
    of the first page, such as any negative [y], is in no band, and the
    lookup returns the last page of the list, not the first. *)
Theorem before_first_page (pages : list Lookup.page)
  (firstPage lastPage : Lookup.page) (y : number) :
  page_geometry_list pages →
  pages !! 0%nat = Some firstPage →
  last pages = Some lastPage →
  (y <? Lookup.top firstPage)%js = true →
  Lookup.findPageForY pages y = Some lastPage.
Proof.
  intros Hwf Hfirst Hlast Hlt.
  assert (Hbands : bands_from (Q2Qc 0) pages)
    by exact (stacked_bands pages 1 _ Hwf).
  rewrite (findPageForY_fallback pages y); [exact Hlast|].
  exact (before_not_in_band pages _ y Hbands firstPage Hfirst Hlt).
Qed.

Lemma before_first_page_witness :
  ∃ firstPage lastPage,
    page_geometry_list sample_pages ∧
    sample_pages !! 0%nat = Some firstPage ∧
    last sample_pages = Some lastPage ∧
    (of_Z (-5) <? Lookup.top firstPage)%js = true ∧
    Lookup.pageNum lastPage = of_Z 3 ∧
    Lookup.findPageForY sample_pages (of_Z (-5)) = Some lastPage.
Proof.
  destruct (sample_pages !! 0%nat) as [firstPage|] eqn:H1; [|discriminate].
  destruct (last sample_pages) as [lastPage|] eqn:Hlast; [|discriminate].
  assert (Hlt : (of_Z (-5) <? Lookup.top firstPage)%js = true).
  { vm_compute in H1. injection H1 as <-. vm_compute. reflexivity. }
  assert (Hnum : Lookup.pageNum lastPage = of_Z 3).
  { vm_compute in Hlast. injection Hlast as <-. same_number. }
  exists firstPage, lastPage.
  split; [exact sample_pages_geometry|].
  repeat (split; [assumption || reflexivity|]).
  exact (before_first_page sample_pages firstPage lastPage (of_Z (-5))
           sample_pages_geometry H1 Hlast Hlt).
Defined.

(** ** Round trips *)

Lemma stacked_lookup (pages : list Lookup.page) (k0 : nat) (t : number)
  (k : nat) (pg : Lookup.page) :
  stacked_from k0 t pages → pages !! k = Some pg →
  Lookup.pageNum pg = of_nat (k0 + k) ∧ PageGeometry pg.
Proof.
  revert k0 t k. induction pages as [|p0 rest IH]; intros k0 t k H Hk.
  - rewrite lookup_nil in Hk. discriminate.
  - destruct H as (Hnum & _ & Hgeo & Hrest). destruct k as [|k].
    + injection Hk as <-. rewrite Nat.add_0_r. auto.
    + replace (k0 + S k)%nat with (S k0 + k)%nat by lia.
      exact (IH _ _ k Hrest Hk).
Qed.

Lemma unscale_scale (v o s : Qc) :
  (0 < s)%Qc → ((v - o) * s / s + o = v)%Qc.
Proof. intros Hs. field. exact (Qcpos_nonzero s Hs). Qed.

Lemma scale_unscale (v o s : Qc) :
  (0 < s)%Qc → ((v / s + o - o) * s = v)%Qc.
Proof. intros Hs. field. exact (Qcpos_nonzero s Hs). Qed.

Lemma unscale_scale_from (v o s a : Qc) :
  (0 < s)%Qc → ((a + (v - o) * s - a) / s + o = v)%Qc.
Proof. intros Hs. field. exact (Qcpos_nonzero s Hs). Qed.

Lemma scale_unscale_from (v o s a : Qc) :
  (0 < s)%Qc → (a + ((v - a) / s + o - o) * s = v)%Qc.
Proof. intros Hs. field. exact (Qcpos_nonzero s Hs). Qed.



(** A native point at the origin offset of the first page, which is
    (-72, -72), lands on the canvas at the left edge and at the top of
    that page. *)
Example origin_offset_maps_to_top :
  ∃ pg c,
    sample_pages !! 0%nat = Some pg ∧
    Reverse.pdfToTldrawCoords (map as_reverse sample_pages) (of_Z 1)
      (of_Z (-72)) (of_Z (-72)) = Normal c ∧
    Reverse.tldrawX c = of_Z 0 ∧
    Reverse.tldrawY c = Lookup.top pg.
Proof.
  eexists _, _. split; [reflexivity|]. split; [reflexivity|].
  split; same_number.
Qed.

(** ** Zero pages *)

Lemma array_get_nil {A : Type} (i : number) : array_get (@nil A) i = None.
Proof.
  destruct i as [q| | |]; try reflexivity. unfold array_get. cbn [length].
  destruct (Qden (this q) =? 1)%positive; [|reflexivity].
  destruct (0 <=? Qnum (this q))%Z eqn:E; [|reflexivity].
  apply Z.leb_le in E. cbn [andb].
  destruct (Qnum (this q) <? Z.of_nat 0)%Z eqn:E'; [|reflexivity].
  apply Z.ltb_lt in E'. lia.
Qed.

Lemma tldrawToPdfCoords_nil (tlX tlY : number) :
  Lookup.tldrawToPdfCoords [] tlX tlY = Throw (TypeError_undefined "top").
Proof.
  unfold Lookup.tldrawToPdfCoords, Lookup.findPageForY.
  cbn [Lookup.findPageForY_loop]. rewrite array_get_nil. reflexivity.
Qed.

Lemma annotations_loop_nil (w : Lookup.world)
  (annotations : list Lookup.store_record) :
  Lookup.annotations_loop w [] annotations
  = ([], match annotations with
         | [] => Lookup.Returns
         | _ :: _ => Lookup.Uncaught (TypeError_undefined "top")
         end).
Proof.
  destruct annotations as [|ann rest]; [reflexivity|].
  cbn [Lookup.annotations_loop]. rewrite tldrawToPdfCoords_nil. reflexivity.
Qed.

(** C6, as the code has it.  With no page file the resolver returns the
    empty list and raises nothing, and [main] prints the count 0 and goes
    on: the run ends normally, or stops on the usage message, or stops on
    the TypeError that a conversion on the empty list throws.  On the empty
    list [tldrawToPdfCoords] always throws that TypeError and
    [pdfToTldrawCoords] always throws the page-not-found error. *)
Theorem zero_pages (w : Lookup.world) (args : list string)
  (tlX tlY pageNum pdfX pdfY : number) :
  Lookup.pdf_exists w = true →
  Lookup.synctex_exists w = true →
  Lookup.svg_files w = [] →
  Lookup.getPageDimensions None (Lookup.svg_files w) = ([], Some [])
  ∧ Lookup.tldrawToPdfCoords [] tlX tlY = Throw (TypeError_undefined "top")
  ∧ Reverse.pdfToTldrawCoords [] pageNum pdfX pdfY
    = Throw (Error_page_not_found pageNum)
  ∧ ∃ printed e,
      Lookup.main w args = (Lookup.Loaded 0 :: printed, e) ∧
      (e = Lookup.Returns ∨ e = Lookup.Exits 1 ∨
       e = Lookup.Uncaught (TypeError_undefined "top")).
Proof.
  intros Hpdf Hsynctex Hfiles.
  split; [rewrite Hfiles; reflexivity|].
  split; [apply tldrawToPdfCoords_nil|].
  split.
  { unfold Reverse.pdfToTldrawCoords. rewrite array_get_nil. reflexivity. }
  unfold Lookup.main. rewrite Hpdf, Hsynctex, Hfiles.
  cbn [negb Lookup.getPageDimensions Lookup.readPages fst length].
  destruct (bool_decide (args !! 0%nat = Some "--from-snapshot")).
  - destruct (Lookup.readAnnotationsFromSnapshot w) as [warned annotations].
    rewrite annotations_loop_nil. eexists _, _. split; [reflexivity|].
    destruct annotations; auto.
  - destruct (bool_decide (args !! 0%nat = Some "--page")).
    + rewrite array_get_nil. eexists _, _. split; [reflexivity|]. auto.
    + destruct (isNaN (parseFloat_opt (args !! 0%nat))
                || isNaN (parseFloat_opt (args !! 1%nat))).
      * eexists _, _. split; [reflexivity|]. auto.
      * rewrite tldrawToPdfCoords_nil.
        eexists _, _. split; [reflexivity|]. auto.
Qed.

Lemma zero_pages_witness :
  Lookup.getPageDimensions None (Lookup.svg_files empty_world)
  = ([], Some [])
  ∧ Lookup.tldrawToPdfCoords [] (of_Z 10) (of_Z 20)
    = Throw (TypeError_undefined "top")
  ∧ Reverse.pdfToTldrawCoords [] (of_Z 1) (of_Z 10) (of_Z 20)
    = Throw (Error_page_not_found (of_Z 1))
  ∧ ∃ printed e,
      Lookup.main empty_world ["10"; "20"] = (Lookup.Loaded 0 :: printed, e) ∧
      (e = Lookup.Returns ∨ e = Lookup.Exits 1 ∨
       e = Lookup.Uncaught (TypeError_undefined "top")).
Proof.
  apply (zero_pages empty_world ["10"; "20"]); reflexivity.
Defined.

(** C6, as the specification has it, fails: with no page file a snapshot
    run without annotations ends normally after printing the count 0, and a
    coordinate run enters the conversion, which is what throws. *)
Lemma zero_pages_not_reported :
  Lookup.getPageDimensions None (Lookup.svg_files empty_world)
  = ([], Some [])
  ∧ Lookup.main empty_world ["--from-snapshot"]
    = ([Lookup.Loaded 0; Lookup.Found 0], Lookup.Returns)
  ∧ Lookup.main empty_world ["10"; "20"]
    = ([Lookup.Loaded 0], Lookup.Uncaught (TypeError_undefined "top")).
Proof. repeat split; vm_compute; reflexivity. Qed.

(** ** Oracle responses *)

Lemma set_property_other (key key' : string) (v : value)
  (result : gmap string value) :
  key' ≠ key → set_property key' v result !! key = result !! key.
Proof.
  intros Hne. unfold set_property.
  destruct (String.eqb key' "__proto__"); [reflexivity|].
  apply lookup_insert_ne. exact Hne.
Qed.

Lemma parse_line_other (key line : string) (result : gmap string value) :
  ¬ sets_key key line → Lookup.parse_line result line !! key = result !! key.
Proof.
  intros Hnot. unfold Lookup.parse_line.
  destruct (match_key_value line) as [[k v]|] eqn:Hline; [|reflexivity].
  assert (Hne : toLowerCase k ≠ key).
  { intros Heq. apply Hnot. exists k, v. auto. }
  destruct (String.eqb (toLowerCase k) "line"
            || String.eqb (toLowerCase k) "column");
    apply set_property_other; exact Hne.
Qed.

Lemma fold_parse_line_other (key : string) (lines : list string)
  (result : gmap string value) :
  (∀ line, line ∈ lines → ¬ sets_key key line) →
  fold_left Lookup.parse_line lines result !! key = result !! key.
Proof.
  revert result. induction lines as [|line rest IH]; intros result Hnone;
    [reflexivity|].
  cbn [fold_left]. rewrite IH.
  - apply parse_line_other. apply Hnone. left.
  - intros l Hl. apply Hnone. right. exact Hl.
Qed.

(** A response without a line for [key] leaves the property undefined. *)
Lemma parse_without_key (key output : string) :
  (∀ line, line ∈ split_lines output → ¬ sets_key key line) →
  Lookup.parseSynctexOutput output !! key = None.
Proof.
  intros Hnone. unfold Lookup.parseSynctexOutput.
  rewrite (fold_parse_line_other key _ ∅ Hnone). apply lookup_empty.
Qed.

(** A response without any key:value line is parsed to the empty
    object. *)
Lemma parse_without_lines (output : string) :
  (∀ line, line ∈ split_lines output → match_key_value line = None) →
  Lookup.parseSynctexOutput output = ∅.
Proof.
  unfold Lookup.parseSynctexOutput. generalize (∅ : gmap string value).
  induction (split_lines output) as [|line rest IH]; intros result Hnone;
    [reflexivity|].
  cbn [fold_left]. unfold Lookup.parse_line at 2.
  rewrite (Hnone line) by left.
  apply IH. intros l Hl. apply Hnone. right. exact Hl.
Qed.



(** A usual response of [synctex edit]: the properties input and line are
    set, the line as a number, and [main] finds a source. *)
Example parse_response :
  let result :=
    Lookup.parseSynctexOutput
      (String.concat (String (ascii_of_nat 10) EmptyString)
         ["SyncTeX result begin"; "Output:/doc/paper.pdf";
          "Input:/doc/paper.tex"; "Line:42"; "Column:-1";
          "SyncTeX result end"; EmptyString]) in
  result !! "input" = Some (VString "/doc/paper.tex") ∧
  result !! "line" = Some (VNumber (of_Z 42)) ∧
  result !! "column" = Some (VNumber (of_Z (-1))) ∧
  result !! "error" = None ∧
  Lookup.has_source result = true.
Proof. repeat split; vm_compute; reflexivity. Qed.

(** ** More on the resolver *)

Lemma readPages_elem (files : list string) (pageNum top : number)
  (pg : Lookup.page) :
  pg ∈ Lookup.readPages files pageNum top →
  ∃ svgContent pageNum' top',
    svgContent ∈ files ∧ pg = Lookup.readPage svgContent pageNum' top'.
Proof.
  revert pageNum top. induction files as [|f rest IH]; intros pageNum top H.
  - cbn in H. apply elem_of_nil in H. contradiction.
  - cbn [Lookup.readPages] in H. apply elem_of_cons in H as [-> | H].
    + exists f, pageNum, top. split; [left|reflexivity].
    + destruct (IH _ _ H) as (c & n & t & Hc & Hpg).
      exists c, n, t. split; [right; exact Hc|exact Hpg].
Qed.

Lemma readPages_numbering (files : list string) (k : nat) (top : number) :
  length (Lookup.readPages files (of_nat k) top) = length files ∧
  ∀ i pg, Lookup.readPages files (of_nat k) top !! i = Some pg →
    Lookup.pageNum pg = of_nat (k + i).
Proof.
  revert k top. induction files as [|f rest IH]; intros k top.
  - split; [reflexivity|]. intros i pg H. cbn in H.
    rewrite lookup_nil in H. discriminate.
  - cbn [Lookup.readPages]. rewrite of_nat_succ.
    destruct (IH (S k)
                (top + (Lookup.scaledHeight
                          (Lookup.readPage f (of_nat k) top)
                        + Lookup.PAGE_SPACING))%js) as [Hlen Hnum].
    split; [cbn [length]; rewrite Hlen; reflexivity|].
    intros [|i] pg H.
    + injection H as <-. rewrite Nat.add_0_r.
      apply (readPage_fields f (of_nat k) top).
    + replace (k + S i)%nat with (S k + i)%nat by lia.
      apply Hnum. exact H.
Qed.

(** X1. Whatever the page files hold, the resolver builds one page for
    each file, in order; the page at position i carries the page number
    i + 1, and the first page starts at the canvas top 0. *)
Theorem resolver_numbering (files : list string) :
  let pages := (Lookup.getPageDimensions None files).1 in
  length pages = length files ∧
  (∀ i pg, pages !! i = Some pg → Lookup.pageNum pg = of_nat (S i)) ∧
  (∀ pg, pages !! 0%nat = Some pg → Lookup.top pg = zero).
Proof.
  cbn [Lookup.getPageDimensions fst].
  destruct (readPages_numbering files 1 zero) as [Hlen Hnum].
  split; [exact Hlen|]. split.
  - intros i pg H. exact (Hnum i pg H).
  - intros pg H. destruct files as [|f rest]; [discriminate|].
    cbn [Lookup.readPages] in H. injection H as <-.
    apply (readPage_fields f one zero).
Qed.

Lemma resolver_numbering_witness :
  ∃ pg, (Lookup.getPageDimensions None sample_files).1 !! 1%nat = Some pg ∧
    Lookup.pageNum pg = of_nat 2.
Proof.
  destruct ((Lookup.getPageDimensions None sample_files).1 !! 1%nat)
    as [pg|] eqn:Hpg; [|discriminate].
  exists pg. split; [reflexivity|].
  exact (proj1 (proj2 (resolver_numbering sample_files)) 1%nat pg Hpg).
Defined.

Lemma readPage_scaledWidth (svgContent : string) (pageNum top : number) :
  let pg := Lookup.readPage svgContent pageNum top in
  Lookup.scaledWidth pg = (Lookup.origWidth pg * Lookup.scale pg)%js.
Proof.
  unfold Lookup.readPage.
  destruct (match_viewBox svgContent) as [group|]; [|reflexivity].
  destruct (split_spaces group) as [|p0 [|p1 [|p2 [|p3 [|p4 ps]]]]];
    reflexivity.
Qed.



Lemma truthy_div_finite (a : number) :
  truthy a = true → ∃ q : Qc, (Lookup.TARGET_WIDTH / a)%js = Fin q.
Proof.
  destruct a as [q| | |]; cbn [truthy]; intros H; try discriminate.
  - unfold Lookup.TARGET_WIDTH, of_Z, div.
    destruct (Qc_sgn q); [discriminate|eexists; reflexivity..].
  - eexists. reflexivity.
  - eexists. reflexivity.
Qed.

Lemma or_else_truthy (a b : number) :
  truthy b = true → truthy (a || b)%js = true.
Proof.
  intros Hb. unfold or_else. destruct (truthy a) eqn:Ha; assumption.
Qed.



(** ** More on the parsed response *)

Lemma parse_line_eq (result : gmap string value) (line k v : string) :
  match_key_value line = Some (k, v) →
  Lookup.parse_line result line
  = set_property (toLowerCase k)
      (if String.eqb (toLowerCase k) "line"
          || String.eqb (toLowerCase k) "column"
       then VNumber (parseInt v) else VString v)
      result.
Proof.
  intros Hm. unfold Lookup.parse_line. rewrite Hm.
  destruct (String.eqb (toLowerCase k) "line"
            || String.eqb (toLowerCase k) "column"); reflexivity.
Qed.

(** The value [parse_line] stores for the text [v] under [key]. *)
Lemma parse_line_sets (result : gmap string value) (line k v : string) :
  match_key_value line = Some (k, v) →
  toLowerCase k ≠ "__proto__" →
  Lookup.parse_line result line !! toLowerCase k
  = Some (if String.eqb (toLowerCase k) "line"
             || String.eqb (toLowerCase k) "column"
          then VNumber (parseInt v) else VString v).
Proof.
  intros Hm Hproto. rewrite (parse_line_eq result line k v Hm).
  unfold set_property.
  destruct (String.eqb_spec (toLowerCase k) "__proto__"); [contradiction|].
  apply lookup_insert_eq.
Qed.

(** X4. In a parsed response the last line for a key wins: when a line
    [k:v] is followed by no other line for the lower-cased key, the result
    holds under that key the text [v], or the integer read from [v] when
    the key is line or column. *)
Theorem last_line_wins (output : string) (before after : list string)
  (line k v : string) :
  split_lines output = before ++ line :: after →
  match_key_value line = Some (k, v) →
  toLowerCase k ≠ "__proto__" →
  (∀ l, l ∈ after → ¬ sets_key (toLowerCase k) l) →
  Lookup.parseSynctexOutput output !! toLowerCase k
  = Some (if String.eqb (toLowerCase k) "line"
             || String.eqb (toLowerCase k) "column"
          then VNumber (parseInt v) else VString v).
Proof.
  intros Hlines Hm Hproto Hafter. unfold Lookup.parseSynctexOutput.
  rewrite Hlines, fold_left_app. cbn [fold_left].
  rewrite (fold_parse_line_other _ after _ Hafter).
  apply parse_line_sets; assumption.
Qed.

Lemma last_line_wins_witness :
  Lookup.parseSynctexOutput
    (String.concat (String (ascii_of_nat 10) EmptyString)
       ["Line:7"; "Input:/doc/a.tex"; "LINE:42"; "Column:-1"])
  !! "line" = Some (VNumber (parseInt "42")).
Proof.
  apply (last_line_wins _ ["Line:7"; "Input:/doc/a.tex"] ["Column:-1"]
           "LINE:42" "LINE" "42"); try reflexivity.
  - discriminate.
  - intros l Hl (k & v & Hm & Hk).
    apply list_elem_of_In in Hl. cbn in Hl. destruct Hl as [<-|[]].
    vm_compute in Hm. injection Hm as <- <-. vm_compute in Hk.
    discriminate.
Defined.

(** X5. A parsed response holds nothing but what its lines say: every
    property of the result is the lower-cased key of some key:value line
    of the response, is not [__proto__], and holds the text of that line,
    or the integer read from it when the key is line or column. *)
Theorem parsed_properties_come_from_lines (output key : string)
  (val : value) :
  Lookup.parseSynctexOutput output !! key = Some val →
  key ≠ "__proto__" ∧
  ∃ line k v,
    line ∈ split_lines output ∧
    match_key_value line = Some (k, v) ∧
    key = toLowerCase k ∧
    val = (if String.eqb key "line" || String.eqb key "column"
           then VNumber (parseInt v) else VString v).
Proof.
  unfold Lookup.parseSynctexOutput.
  assert (Hgen : ∀ lines result,
            fold_left Lookup.parse_line lines result !! key = Some val →
            result !! key = Some val ∨
            (key ≠ "__proto__" ∧
             ∃ line k v, line ∈ lines ∧ match_key_value line = Some (k, v) ∧
               key = toLowerCase k ∧
               val = (if String.eqb key "line" || String.eqb key "column"
                      then VNumber (parseInt v) else VString v))).
  { induction lines as [|line rest IH]; intros result H; [left; exact H|].
    cbn [fold_left] in H. destruct (IH _ H) as [Hhere | Hlater].
    - destruct (match_key_value line) as [[k v]|] eqn:Hm.
      + rewrite (parse_line_eq result line k v Hm) in Hhere.
        unfold set_property in Hhere.
        destruct (String.eqb_spec (toLowerCase k) "__proto__") as [Hp|Hp];
          [left; exact Hhere|].
        destruct (decide (toLowerCase k = key)) as [Heq|Hne].
        * right. subst key. rewrite lookup_insert_eq in Hhere.
          injection Hhere as <-. split; [exact Hp|].
          exists line, k, v. split; [left|]. repeat split. exact Hm.
        * left. rewrite lookup_insert_ne in Hhere by exact Hne. exact Hhere.
      + left. unfold Lookup.parse_line in Hhere. rewrite Hm in Hhere.
        exact Hhere.
    - right. destruct Hlater as (Hp & l & k & v & Hl & Hrest).
      split; [exact Hp|].
      exists l, k, v. split; [right; exact Hl|exact Hrest]. }
  intros H. destruct (Hgen _ _ H) as [Hempty | Hfound]; [|exact Hfound].
  rewrite lookup_empty in Hempty. discriminate.
Qed.

Lemma parsed_properties_come_from_lines_witness :
  "line" ≠ "__proto__" ∧
  ∃ line k v,
    line ∈ split_lines "Line:42" ∧
    match_key_value line = Some (k, v) ∧
    "line" = toLowerCase k ∧
    VNumber (parseInt "42")
    = (if String.eqb "line" "line" || String.eqb "line" "column"
       then VNumber (parseInt v) else VString v).
Proof.
  apply (parsed_properties_come_from_lines "Line:42" "line").
  reflexivity.
Defined.

(** ** Runs of the lookup script *)

Lemma tldrawToPdfCoords_nonempty (pages : list Lookup.page)
  (tlX tlY : number) :
  pages ≠ [] → ∃ coords, Lookup.tldrawToPdfCoords pages tlX tlY = Normal coords.
Proof.
  intros Hne. destruct (findPageForY_nonempty pages tlY Hne) as [pg Hpg].
  unfold Lookup.tldrawToPdfCoords. rewrite Hpg. eauto.
Qed.

Lemma resolver_nonempty (files : list string) :
  files ≠ [] → (Lookup.getPageDimensions None files).1 ≠ [].
Proof. destruct files; [congruence|discriminate]. Qed.

Lemma resolver_length (files : list string) :
  length (Lookup.getPageDimensions None files).1 = length files.
Proof. apply (readPages_numbering files 1 zero). Qed.

(** A command-line word that reads as a number is none of the two
    options. *)
Lemma number_is_no_option (s : string) :
  isNaN (parseFloat s) = false →
  s ≠ "--from-snapshot" ∧ s ≠ "--page".
Proof. intros H. split; intros ->; vm_compute in H; discriminate. Qed.

(** X6. A coordinate run on a document of at least one page always ends
    normally, whatever the oracle does: it prints the page count, the
    canvas point, the document point of [tldrawToPdfCoords], and then the
    source with its JSON line when the oracle result has a truthy input
    and line, or the no-source message in every other case, a failed
    oracle included. *)
Theorem coordinate_run_returns (w : Lookup.world) (sx sy : string)
  (others : list string) :
  Lookup.pdf_exists w = true →
  Lookup.synctex_exists w = true →
  Lookup.svg_files w ≠ [] →
  isNaN (parseFloat sx) = false →
  isNaN (parseFloat sy) = false →
  ∃ coords,
    Lookup.tldrawToPdfCoords (Lookup.getPageDimensions None
                                (Lookup.svg_files w)).1
      (parseFloat sx) (parseFloat sy) = Normal coords ∧
    Lookup.main w (sx :: sy :: others)
    = ([Lookup.Loaded (length (Lookup.svg_files w));
        Lookup.TldrawCoords (parseFloat sx) (parseFloat sy);
        Lookup.PageCoords coords] ++
       match Lookup.source_of
               (Lookup.synctexLookup (Lookup.execSync w)
                  (Lookup.page_of coords) (Lookup.pdfX coords)
                  (Lookup.pdfY coords)) with
       | Some (i, l) =>
           [Lookup.Source i l;
            Lookup.Json i l coords (parseFloat sx) (parseFloat sy)]
       | None => [Lookup.NoSource]
       end,
       Lookup.Returns).
Proof.
  intros Hpdf Hsynctex Hfiles Hx Hy.
  destruct (tldrawToPdfCoords_nonempty _ (parseFloat sx) (parseFloat sy)
              (resolver_nonempty _ Hfiles)) as [coords Hcoords].
  exists coords. split; [exact Hcoords|].
  destruct (number_is_no_option sx Hx) as [Hsnap Hpage].
  unfold Lookup.main. rewrite Hpdf, Hsynctex. cbn [negb].
  rewrite resolver_length.
  rewrite (bool_decide_eq_false_2 ((sx :: sy :: others) !! 0%nat
                                   = Some "--from-snapshot"))
    by (cbn; congruence).
  rewrite (bool_decide_eq_false_2 ((sx :: sy :: others) !! 0%nat
                                   = Some "--page"))
    by (cbn; congruence).
  cbn [lookup list_lookup parseFloat_opt].
  rewrite Hx, Hy. cbn [orb]. rewrite Hcoords. reflexivity.
Qed.

Lemma coordinate_run_returns_witness :
  ∃ coords,
    Lookup.tldrawToPdfCoords
      (Lookup.getPageDimensions None ["<svg viewBox='0 0 600 800'>"]).1
      (parseFloat "30") (parseFloat "40") = Normal coords ∧
    Lookup.main
      {| Lookup.pdf_exists := true;
         Lookup.synctex_exists := true;
         Lookup.svg_files := ["<svg viewBox='0 0 600 800'>"];
         Lookup.snapshot := None;
         Lookup.execSync := fun _ _ _ => Failed None "spawn ENOENT" |}
      ["30"; "40"]
    = ([Lookup.Loaded 1;
        Lookup.TldrawCoords (parseFloat "30") (parseFloat "40");
        Lookup.PageCoords coords; Lookup.NoSource],
       Lookup.Returns).
Proof.
  destruct (coordinate_run_returns
              {| Lookup.pdf_exists := true;
                 Lookup.synctex_exists := true;
                 Lookup.svg_files := ["<svg viewBox='0 0 600 800'>"];
                 Lookup.snapshot := None;
                 Lookup.execSync := fun _ _ _ => Failed None "spawn ENOENT" |}
              "30" "40" [] eq_refl eq_refl ltac:(discriminate) eq_refl
              eq_refl) as (coords & Hcoords & Hmain).
  exists coords. split; [exact Hcoords|]. exact Hmain.
Defined.

Lemma local_offset (a y : Qc) : (a + y - a = y)%Qc.
Proof. ring. Qed.



(** X8. With the option for an explicit page, a page number that is 0 or
    above the number of pages stops the run on a TypeError right after
    the page count is printed, before the coordinates are even checked
    for being numbers. *)
Theorem page_mode_unknown_page (w : Lookup.world) (sN : string)
  (others : list string) (p : nat) :
  Lookup.pdf_exists w = true →
  Lookup.synctex_exists w = true →
  parseInt sN = of_nat p →
  p = 0%nat ∨ (length (Lookup.svg_files w) < p)%nat →
  Lookup.main w ("--page" :: sN :: others)
  = ([Lookup.Loaded (length (Lookup.svg_files w))],
     Lookup.Uncaught (TypeError_undefined "top")).
Proof.
  intros Hpdf Hsynctex HN Hp.
  unfold Lookup.main. rewrite Hpdf, Hsynctex. cbn [negb].
  rewrite resolver_length.
  rewrite (bool_decide_eq_false_2
             (("--page" :: sN :: others) !! 0%nat
              = Some "--from-snapshot")) by (cbn; congruence).
  rewrite (bool_decide_eq_true_2
             (("--page" :: sN :: others) !! 0%nat = Some "--page"))
    by reflexivity.
  cbn [lookup list_lookup parseInt_opt]. rewrite HN, pages_index.
  destruct p as [|k]; [reflexivity|].
  rewrite (proj2 (lookup_ge_None _ k)); [reflexivity|].
  rewrite resolver_length. destruct Hp; [discriminate|lia].
Qed.

Lemma page_mode_unknown_page_witness :
  Lookup.main sample_world ["--page"; "4"; "abc"]
  = ([Lookup.Loaded 3], Lookup.Uncaught (TypeError_undefined "top")).
Proof.
  apply (page_mode_unknown_page sample_world "4" ["abc"] 4);
    try reflexivity.
  right. cbn. lia.
Defined.

Lemma annotations_loop_returns (w : Lookup.world) (pages : list Lookup.page)
  (annotations : list Lookup.store_record) :
  pages ≠ [] →
  ∃ printed,
    Lookup.annotations_loop w pages annotations = (printed, Lookup.Returns) ∧
    length printed = (3 * length annotations)%nat ∧
    ∀ ann, Lookup.AnnotationAt ann ∈ printed → ann ∈ annotations.
Proof.
  intros Hne. induction annotations as [|a rest IH].
  - exists []. repeat split. intros ann H. apply elem_of_nil in H.
    contradiction.
  - destruct IH as (later & Hloop & Hlen & Hin).
    destruct (tldrawToPdfCoords_nonempty pages (Lookup.x a) (Lookup.y a) Hne)
      as [coords Hcoords].
    cbn [Lookup.annotations_loop]. rewrite Hcoords, Hloop.
    eexists. split; [reflexivity|]. split.
    + cbn [length app]. rewrite Hlen. lia.
    + intros ann H. cbn [app] in H.
      apply elem_of_cons in H as [H | H]; [injection H as ->; left|].
      apply elem_of_cons in H as [H | H]; [discriminate|].
      apply elem_of_cons in H as [H | H].
      * destruct (Lookup.source_of _) as [[i l]|]; discriminate.
      * right. apply Hin. exact H.
Qed.

(** X9. A snapshot run on a document of at least one page always ends
    normally, whatever the oracle does.  It prints the page count, a
    warning when there is no snapshot, the number of annotations, and then
    three messages for each annotation; the annotations it looks up are
    shapes of the store and never images. *)
Theorem snapshot_run_returns (w : Lookup.world) (others : list string) :
  Lookup.pdf_exists w = true →
  Lookup.synctex_exists w = true →
  Lookup.svg_files w ≠ [] →
  ∃ (annotations : list Lookup.store_record)
    (printed : list Lookup.message),
    Lookup.main w ("--from-snapshot" :: others)
    = (Lookup.Loaded (length (Lookup.svg_files w))
       :: match Lookup.snapshot w with
          | None => [Lookup.NoSnapshot]
          | Some _ => []
          end
       ++ Lookup.Found (length annotations) :: printed,
       Lookup.Returns) ∧
    length printed = (3 * length annotations)%nat ∧
    ∀ ann, Lookup.AnnotationAt ann ∈ printed →
      Lookup.typeName ann = "shape" ∧ Lookup.type ann ≠ "image" ∧
      ∃ store, Lookup.snapshot w = Some store ∧ ann ∈ store.
Proof.
  intros Hpdf Hsynctex Hfiles.
  exists (Lookup.readAnnotationsFromSnapshot w).2.
  destruct (annotations_loop_returns w _
              (Lookup.readAnnotationsFromSnapshot w).2
              (resolver_nonempty _ Hfiles)) as (printed & Hloop & Hlen & Hin).
  exists printed. split; [|split; [exact Hlen|]].
  - unfold Lookup.main. rewrite Hpdf, Hsynctex. cbn [negb].
    rewrite resolver_length.
    rewrite (bool_decide_eq_true_2
               (("--from-snapshot" :: others) !! 0%nat
                = Some "--from-snapshot")) by reflexivity.
    destruct (Lookup.readAnnotationsFromSnapshot w) as [warned annotations]
      eqn:Hread.
    cbn [snd] in Hloop. rewrite Hloop.
    unfold Lookup.readAnnotationsFromSnapshot in Hread.
    destruct (Lookup.snapshot w); injection Hread as <- <-; reflexivity.
  - intros ann Hann. apply Hin in Hann.
    unfold Lookup.readAnnotationsFromSnapshot in Hann.
    destruct (Lookup.snapshot w) as [store|]; cbn [snd] in Hann.
    + apply list_elem_of_In, filter_In in Hann as [Hstore Hkeep].
      apply andb_true_iff in Hkeep as [Hshape Himage].
      apply String.eqb_eq in Hshape.
      apply negb_true_iff, String.eqb_neq in Himage.
      split; [exact Hshape|]. split; [exact Himage|].
      exists store. split; [reflexivity|]. apply list_elem_of_In, Hstore.
    + apply elem_of_nil in Hann. contradiction.
Qed.

Lemma snapshot_run_returns_witness :
  ∃ (annotations : list Lookup.store_record)
    (printed : list Lookup.message),
    Lookup.main snapshot_world ["--from-snapshot"]
    = (Lookup.Loaded 3
       :: [] ++ Lookup.Found (length annotations) :: printed,
       Lookup.Returns) ∧
    length printed = (3 * length annotations)%nat ∧
    ∀ ann, Lookup.AnnotationAt ann ∈ printed →
      Lookup.typeName ann = "shape" ∧ Lookup.type ann ≠ "image" ∧
      ∃ store, Lookup.snapshot snapshot_world = Some store ∧ ann ∈ store.
Proof.
  apply (snapshot_run_returns snapshot_world []); try reflexivity.
  discriminate.
Defined.

(** The run of the lookup script on the snapshot of [snapshot_world]: the
    image is skipped, and the drawn annotation at y = 1300 falls on
    page 2. *)
Example snapshot_run_example :
  ∃ ann coords,
    Lookup.main snapshot_world ["--from-snapshot"]
    = ([Lookup.Loaded 3; Lookup.Found 1; Lookup.AnnotationAt ann;
        Lookup.PageCoords coords; Lookup.NoSource], Lookup.Returns) ∧
    Lookup.id ann = "shape:a1" ∧
    Lookup.page_of coords = of_Z 2.
Proof.
  eexists _, _. split; [vm_compute; reflexivity|].
  split; [reflexivity|]. same_number.
Qed.

(** ** The response as the reverse script parses it *)

Lemma reverse_parse_line_eq (result : gmap string value)
  (line k v : string) :
  match_key_value line = Some (k, v) →
  Reverse.parse_line result line
  = set_property (toLowerCase k)
      (if existsb (String.eqb (toLowerCase k))
            ["page"; "x"; "y"; "h"; "v"; "w"; "height"]
       then VNumber (parseFloat v) else VString v)
      result.
Proof.
  intros Hm. unfold Reverse.parse_line. rewrite Hm.
  destruct (existsb _ _); reflexivity.
Qed.

Lemma reverse_parse_line_other (key line : string)
  (result : gmap string value) :
  ¬ sets_key key line → Reverse.parse_line result line !! key = result !! key.
Proof.
  intros Hnot.
  destruct (match_key_value line) as [[k v]|] eqn:Hm.
  - rewrite (reverse_parse_line_eq result line k v Hm).
    apply set_property_other. intros Heq. apply Hnot. exists k, v. auto.
  - unfold Reverse.parse_line. rewrite Hm. reflexivity.
Qed.

Lemma reverse_parse_without_key (key output : string) :
  (∀ line, line ∈ split_lines output → ¬ sets_key key line) →
  Reverse.parseSynctexOutput output !! key = None.
Proof.
  unfold Reverse.parseSynctexOutput.
  assert (Hgen : ∀ lines result,
            (∀ line, line ∈ lines → ¬ sets_key key line) →
            fold_left Reverse.parse_line lines result !! key
            = result !! key).
  { induction lines as [|line rest IH]; intros result Hnone;
      [reflexivity|].
    cbn [fold_left]. rewrite IH.
    - apply reverse_parse_line_other. apply Hnone. left.
    - intros l Hl. apply Hnone. right. exact Hl. }
  intros Hnone. rewrite (Hgen _ ∅ Hnone). apply lookup_empty.
Qed.

Lemma fold_same_absence (key : string) (lines : list string)
  (r1 r2 : gmap string value) :
  (r1 !! key = None ↔ r2 !! key = None) →
  (fold_left Lookup.parse_line lines r1 !! key = None ↔
   fold_left Reverse.parse_line lines r2 !! key = None).
Proof.
  revert r1 r2. induction lines as [|line rest IH]; intros r1 r2 H;
    [exact H|].
  cbn [fold_left]. apply IH.
  destruct (match_key_value line) as [[k v]|] eqn:Hm.
  - rewrite (parse_line_eq r1 line k v Hm),
      (reverse_parse_line_eq r2 line k v Hm).
    unfold set_property.
    destruct (String.eqb (toLowerCase k) "__proto__"); [exact H|].
    destruct (decide (toLowerCase k = key)) as [->|Hne].
    + rewrite !lookup_insert_eq. split; discriminate.
    + rewrite !lookup_insert_ne by exact Hne. exact H.
  - unfold Lookup.parse_line, Reverse.parse_line. rewrite Hm. exact H.
Qed.

Lemma fold_same_text (key : string) (lines : list string)
  (r1 r2 : gmap string value) :
  key ∉ ["line"; "column"; "page"; "x"; "y"; "h"; "v"; "w"; "height"] →
  r1 !! key = r2 !! key →
  fold_left Lookup.parse_line lines r1 !! key
  = fold_left Reverse.parse_line lines r2 !! key.
Proof.
  intros Hkey. revert r1 r2.
  induction lines as [|line rest IH]; intros r1 r2 H; [exact H|].
  cbn [fold_left]. apply IH.
  destruct (match_key_value line) as [[k v]|] eqn:Hm.
  - rewrite (parse_line_eq r1 line k v Hm),
      (reverse_parse_line_eq r2 line k v Hm).
    unfold set_property.
    destruct (String.eqb (toLowerCase k) "__proto__"); [exact H|].
    destruct (decide (toLowerCase k = key)) as [Heq|Hne].
    + rewrite Heq, !lookup_insert_eq.
      assert (Hl : String.eqb key "line" || String.eqb key "column"
                   = false).
      { apply orb_false_iff. split; apply String.eqb_neq; intros ->;
          apply Hkey; set_solver. }
      assert (Hr : existsb (String.eqb key)
                     ["page"; "x"; "y"; "h"; "v"; "w"; "height"] = false).
      { apply not_true_is_false. intros Hex.
        apply existsb_exists in Hex as (s & Hs & Heqb).
        apply String.eqb_eq in Heqb. subst s. apply Hkey.
        apply list_elem_of_In. cbn in Hs. cbn. tauto. }
      rewrite Hl, Hr. reflexivity.
    + rewrite !lookup_insert_ne by exact Hne. exact H.
  - unfold Lookup.parse_line, Reverse.parse_line. rewrite Hm. exact H.
Qed.

(** X10. The two scripts parse a response to objects with the same
    properties: a key is absent from the one exactly when it is absent
    from the other, and under every key that neither script reads as a
    number both hold the same text. *)
Theorem parsers_agree (output key : string) :
  (Lookup.parseSynctexOutput output !! key = None ↔
   Reverse.parseSynctexOutput output !! key = None)
  ∧ (key ∉ ["line"; "column"; "page"; "x"; "y"; "h"; "v"; "w"; "height"] →
     Lookup.parseSynctexOutput output !! key
     = Reverse.parseSynctexOutput output !! key).
Proof.
  unfold Lookup.parseSynctexOutput, Reverse.parseSynctexOutput. split.
  - apply fold_same_absence. reflexivity.
  - intros Hkey. apply fold_same_text; [exact Hkey|reflexivity].
Qed.

Lemma parsers_agree_witness :
  Lookup.parseSynctexOutput "Input:/doc/a.tex" !! "input"
  = Reverse.parseSynctexOutput "Input:/doc/a.tex" !! "input".
Proof.
  apply (proj2 (parsers_agree "Input:/doc/a.tex" "input")).
  intros H. apply list_elem_of_In in H. cbn in H.
  repeat (destruct H as [H|H]; [discriminate|]). exact H.
Defined.

(** ** Runs of the reverse script *)

Lemma numeric_key_cases (key : string) :
  key ∈ ["page"; "x"; "y"; "h"; "v"; "w"; "height"] →
  existsb (String.eqb key) ["page"; "x"; "y"; "h"; "v"; "w"; "height"] = true
  ∧ key ≠ "__proto__".
Proof.
  intros H. apply list_elem_of_In in H. cbn in H.
  repeat (destruct H as [<-|H]; [split; [reflexivity|discriminate]|]).
  contradiction.
Qed.

Lemma reverse_fold_numeric (key : string) (lines : list string)
  (r : gmap string value) :
  existsb (String.eqb key) ["page"; "x"; "y"; "h"; "v"; "w"; "height"] = true →
  (∀ s, r !! key ≠ Some (VString s)) →
  ∀ s, fold_left Reverse.parse_line lines r !! key ≠ Some (VString s).
Proof.
  intros Hkey. revert r.
  induction lines as [|line rest IH]; intros r Hr; [exact Hr|].
  cbn [fold_left]. apply IH. intros s.
  destruct (match_key_value line) as [[k v]|] eqn:Hm.
  - rewrite (reverse_parse_line_eq r line k v Hm). unfold set_property.
    destruct (String.eqb (toLowerCase k) "__proto__"); [apply Hr|].
    destruct (decide (toLowerCase k = key)) as [->|Hne].
    + rewrite lookup_insert_eq, Hkey. discriminate.
    + rewrite lookup_insert_ne by exact Hne. apply Hr.
  - unfold Reverse.parse_line. rewrite Hm. apply Hr.
Qed.

Lemma reverse_fold_sets (key : string) (lines : list string)
  (r : gmap string value) :
  key ≠ "__proto__" →
  r !! key ≠ None ∨ (∃ line, line ∈ lines ∧ sets_key key line) →
  fold_left Reverse.parse_line lines r !! key ≠ None.
Proof.
  intros Hproto. revert r.
  induction lines as [|line rest IH]; intros r H.
  - destruct H as [H|(l & Hl & _)]; [exact H|].
    apply elem_of_nil in Hl. contradiction.
  - cbn [fold_left]. apply IH.
    destruct (match_key_value line) as [[k v]|] eqn:Hm.
    + rewrite (reverse_parse_line_eq r line k v Hm).
      destruct (decide (toLowerCase k = key)) as [Heq|Hne].
      * left. unfold set_property. rewrite Heq.
        destruct (String.eqb_spec key "__proto__"); [contradiction|].
        rewrite lookup_insert_eq. discriminate.
      * rewrite set_property_other by exact Hne.
        destruct H as [H|(l & Hl & Hs)]; [left; exact H|].
        apply elem_of_cons in Hl as [->|Hl]; [|right; eauto].
        destruct Hs as (k' & v' & Hm' & Hk'). rewrite Hm in Hm'.
        injection Hm' as <- <-. contradiction.
    + unfold Reverse.parse_line at 1. rewrite Hm.
      destruct H as [H|(l & Hl & Hs)]; [left; exact H|].
      apply elem_of_cons in Hl as [->|Hl]; [|right; eauto].
      destruct Hs as (k' & v' & Hm' & _). rewrite Hm in Hm'. discriminate.
Qed.

(** X11. In the reverse script a geometric property of the parsed response
    (page, x, y, h, v, w, height) is undefined exactly when no line of the
    response names it; a line that names it always leaves a number, never
    a text. *)
Theorem reverse_numbers_come_from_lines (output key : string) :
  key ∈ ["page"; "x"; "y"; "h"; "v"; "w"; "height"] →
  (Reverse.number_property (Reverse.parseSynctexOutput output) key = None
   ↔ ∀ line, line ∈ split_lines output → ¬ sets_key key line).
Proof.
  intros Hkey. destruct (numeric_key_cases key Hkey) as [Hnum Hproto].
  split.
  - intros Hnone line Hline Hsets.
    unfold Reverse.number_property, Reverse.parseSynctexOutput in Hnone.
    pose proof (reverse_fold_numeric key (split_lines output) ∅ Hnum)
      as Htyped.
    pose proof (reverse_fold_sets key (split_lines output) ∅ Hproto)
      as Hset.
    destruct (fold_left Reverse.parse_line (split_lines output) ∅ !! key)
      as [[s|n]|].
    + apply (Htyped (λ s' H, ltac:(rewrite lookup_empty in H; discriminate))
               s).
      reflexivity.
    + discriminate.
    + apply Hset; [right; eauto|reflexivity].
  - intros Hnone. unfold Reverse.number_property.
    rewrite (reverse_parse_without_key key output Hnone). reflexivity.
Qed.

Lemma reverse_numbers_come_from_lines_witness :
  Reverse.number_property
    (Reverse.parseSynctexOutput
       (String.concat (String (ascii_of_nat 10) EmptyString)
          ["Page:2"; "x:100"])) "y" = None
  ↔ ∀ line,
      line ∈ split_lines
               (String.concat (String (ascii_of_nat 10) EmptyString)
                  ["Page:2"; "x:100"]) →
      ¬ sets_key "y" line.
Proof.
  apply (reverse_numbers_come_from_lines _ "y").
  apply list_elem_of_In. cbn. tauto.
Defined.

Lemma truthy_of_nat (p : nat) : (0 < p)%nat → truthy (of_nat p) = true.
Proof.
  intros Hp. unfold truthy, of_nat, of_Z.
  rewrite Qc_sgn_pos; [reflexivity|].
  unfold Qclt. rewrite this_inject_Z.
  change (this 0%Qc) with (inject_Z 0). rewrite <- Zlt_Qlt. lia.
Qed.

Lemma reverse_resolver_length (files : list string) :
  length (Reverse.getPageDimensions None files).1 = length files.
Proof.
  cbn [Reverse.getPageDimensions fst].
  rewrite readPages_agree, length_map. apply (resolver_length files).
Qed.

(** An index [n - 1] that finds an element is a page number from 1 to the
    length. *)
Lemma array_get_page_number {A : Type} (arr : list A) (n : number) (a : A) :
  array_get arr (n - one)%js = Some a →
  ∃ p : nat, n = of_nat p ∧ (1 <= p <= length arr)%nat.
Proof.
  intros H. destruct n as [q| | |]; try discriminate.
  unfold one, of_Z, sub in H. cbn [neg add] in H. unfold array_get in H.
  set (d := (q + - Q2Qc (inject_Z 1))%Qc) in *.
  destruct (Pos.eqb (Qden (this d)) 1) eqn:Hden; [|discriminate].
  destruct (0 <=? Qnum (this d))%Z eqn:Hlo; [|discriminate].
  destruct (Qnum (this d) <? Z.of_nat (length arr))%Z eqn:Hhi; [|discriminate].
  apply Pos.eqb_eq in Hden. apply Z.leb_le in Hlo. apply Z.ltb_lt in Hhi.
  exists (S (Z.to_nat (Qnum (this d)))). split; [|lia].
  assert (Hd : d = Q2Qc (inject_Z (Qnum (this d)))).
  { apply Qc_is_canon. rewrite this_inject_Z. unfold inject_Z.
    destruct (this d) as [num den]. cbn in *. subst den. reflexivity. }
  assert (Hq : q = (d + Q2Qc (inject_Z 1))%Qc) by (unfold d; ring).
  unfold of_nat. rewrite Nat2Z.inj_succ, Z2Nat.id by exact Hlo.
  rewrite <- Z.add_1_r.
  change (Fin q = of_Z (Qnum (this d) + 1)).
  rewrite <- of_Z_add. unfold of_Z. cbn [add]. f_equal.
  rewrite Hq at 1. rewrite <- Hd. reflexivity.
Qed.

Lemma reverse_number_property (result : gmap string value) (key : string)
  (n : number) :
  result !! key = Some (VNumber n) →
  Reverse.number_property result key = Some n.
Proof. intros H. unfold Reverse.number_property. rewrite H. reflexivity. Qed.

Lemma reverse_number_undefined (output key : string) :
  (∀ line, line ∈ split_lines output → ¬ sets_key key line) →
  Reverse.number_property (Reverse.parseSynctexOutput output) key = None.
Proof.
  intros H. unfold Reverse.number_property.
  rewrite (reverse_parse_without_key key output H). reflexivity.
Qed.

(** X12. A run of the reverse script whose oracle response names no page,
    or a page that reads as 0 or as no number, or names no x, prints that
    no coordinates were returned, with the parsed response, and exits
    with status 1. *)
Theorem reverse_run_without_coordinates (w : Reverse.world)
  (texFile lineArg : string) (rest : list string) (output : string) :
  Reverse.tex_exists w texFile = true →
  Reverse.execSync w texFile (parseInt lineArg) = Returned output →
  (∀ line, line ∈ split_lines output → ¬ sets_key "page" line)
  ∨ (∃ page, Reverse.parseSynctexOutput output !! "page"
             = Some (VNumber page) ∧ truthy page = false)
  ∨ (∀ line, line ∈ split_lines output → ¬ sets_key "x" line) →
  Reverse.main w (texFile :: lineArg :: rest)
  = ([Reverse.NoCoordinates (Reverse.parseSynctexOutput output)],
     Reverse.Exits 1).
Proof.
  intros Htex Hexec H. unfold Reverse.main, Reverse.synctexView.
  rewrite Htex, Hexec. cbn [negb].
  destruct H as [Hpage | [(page & Hpage & Hfalsy) | Hx]].
  - rewrite (reverse_number_undefined output "page" Hpage). reflexivity.
  - rewrite (reverse_number_property _ "page" page Hpage), Hfalsy.
    destruct (Reverse.number_property _ "x"); reflexivity.
  - rewrite (reverse_number_undefined output "x" Hx).
    destruct (Reverse.number_property _ "page"); reflexivity.
Qed.

Lemma reverse_run_without_coordinates_witness :
  Reverse.main (reverse_world ["Page:0"; "x:100"; "y:50"]) ["a.tex"; "12"]
  = ([Reverse.NoCoordinates
        (Reverse.parseSynctexOutput
           (String.concat (String (ascii_of_nat 10) EmptyString)
              ["Page:0"; "x:100"; "y:50"]))],
     Reverse.Exits 1).
Proof.
  apply (reverse_run_without_coordinates
           (reverse_world ["Page:0"; "x:100"; "y:50"]) "a.tex" "12" []);
    [reflexivity|reflexivity|].
  right. left. exists (parseFloat "0"). split; vm_compute; reflexivity.
Defined.

(** X13. A run whose response names a page and an x but no y prints the
    TeX position and then dies on the TypeError of reading [toFixed] of the
    undefined y: the missing y is not reported as missing coordinates. *)
Theorem reverse_run_without_y (w : Reverse.world)
  (texFile lineArg : string) (rest : list string) (output : string)
  (page x : number) :
  Reverse.tex_exists w texFile = true →
  Reverse.execSync w texFile (parseInt lineArg) = Returned output →
  Reverse.parseSynctexOutput output !! "page" = Some (VNumber page) →
  truthy page = true →
  Reverse.parseSynctexOutput output !! "x" = Some (VNumber x) →
  (∀ line, line ∈ split_lines output → ¬ sets_key "y" line) →
  Reverse.main w (texFile :: lineArg :: rest)
  = ([Reverse.TexLine texFile (parseInt lineArg)],
     Reverse.Uncaught (TypeError_undefined "toFixed")).
Proof.
  intros Htex Hexec Hpage Htruthy Hx Hy.
  unfold Reverse.main, Reverse.synctexView.
  rewrite Htex, Hexec. cbn [negb].
  rewrite (reverse_number_property _ "page" page Hpage),
    (reverse_number_property _ "x" x Hx), Htruthy. cbn [negb].
  rewrite (reverse_number_undefined output "y" Hy). reflexivity.
Qed.

Lemma reverse_run_without_y_witness :
  Reverse.main (reverse_world ["Page:2"; "x:100"]) ["a.tex"; "12"]
  = ([Reverse.TexLine "a.tex" (parseInt "12")],
     Reverse.Uncaught (TypeError_undefined "toFixed")).
Proof.
  apply (reverse_run_without_y (reverse_world ["Page:2"; "x:100"])
           "a.tex" "12" []
           (String.concat (String (ascii_of_nat 10) EmptyString)
              ["Page:2"; "x:100"])
           (parseFloat "2") (parseFloat "100"));
    try (vm_compute; reflexivity).
  intros line Hline (k & v & Hm & Hk).
  apply list_elem_of_In in Hline. vm_compute in Hline.
  destruct Hline as [<-|[<-|[]]]; vm_compute in Hm;
    injection Hm as <- <-; vm_compute in Hk; discriminate.
Defined.

(** X14. A run whose response names the page p of a document that has
    that page, with an x and a y, prints four messages and returns: the
    canvas point is the native point, moved by the offset of the page and
    scaled, and moved down by the top of the page. *)
Theorem reverse_run_converts (w : Reverse.world)
  (texFile lineArg : string) (rest : list string) (output : string)
  (p : nat) (x y : number) :
  Reverse.tex_exists w texFile = true →
  Reverse.execSync w texFile (parseInt lineArg) = Returned output →
  Reverse.parseSynctexOutput output !! "page" = Some (VNumber (of_nat p)) →
  Reverse.parseSynctexOutput output !! "x" = Some (VNumber x) →
  Reverse.parseSynctexOutput output !! "y" = Some (VNumber y) →
  (1 <= p <= length (Reverse.svg_files w))%nat →
  ∃ pg : Reverse.page,
    (Reverse.getPageDimensions None (Reverse.svg_files w)).1 !! (p - 1)%nat
    = Some pg ∧
    let c :=
      {| Reverse.tldrawX :=
           ((x - Reverse.viewBoxMinX pg) * Reverse.scale pg)%js;
         Reverse.tldrawY :=
           (Reverse.top pg
            + (y - Reverse.viewBoxMinY pg) * Reverse.scale pg)%js;
         Reverse.page_of := of_nat p |} in
    Reverse.main w (texFile :: lineArg :: rest)
    = ([Reverse.TexLine texFile (parseInt lineArg);
        Reverse.PdfCoords (of_nat p) x y;
        Reverse.TldrawCoords c;
        Reverse.Json c x y],
       Reverse.Returns).
Proof.
  intros Htex Hexec Hpage Hx Hy Hp.
  destruct p as [|k]; [lia|].
  destruct (lookup_lt_is_Some_2
              (Reverse.getPageDimensions None (Reverse.svg_files w)).1 k)
    as [pg Hpg].
  { rewrite reverse_resolver_length. lia. }
  exists pg. replace (S k - 1)%nat with k by lia. split; [exact Hpg|].
  unfold Reverse.main, Reverse.synctexView.
  rewrite Htex, Hexec. cbn [negb].
  rewrite (reverse_number_property _ "page" _ Hpage),
    (reverse_number_property _ "x" x Hx),
    (reverse_number_property _ "y" y Hy).
  rewrite truthy_of_nat by lia. cbn [negb].
  unfold Reverse.pdfToTldrawCoords. rewrite pages_index, Hpg. reflexivity.
Qed.

Lemma reverse_run_converts_witness :
  ∃ pg : Reverse.page,
    (Reverse.getPageDimensions None sample_files).1 !! 1%nat = Some pg ∧
    let c :=
      {| Reverse.tldrawX :=
           ((parseFloat "100" - Reverse.viewBoxMinX pg)
            * Reverse.scale pg)%js;
         Reverse.tldrawY :=
           (Reverse.top pg
            + (parseFloat "50" - Reverse.viewBoxMinY pg)
              * Reverse.scale pg)%js;
         Reverse.page_of := of_nat 2 |} in
    Reverse.main (reverse_world ["Page:2"; "x:100"; "y:50"])
      ["a.tex"; "12"]
    = ([Reverse.TexLine "a.tex" (parseInt "12");
        Reverse.PdfCoords (of_nat 2) (parseFloat "100") (parseFloat "50");
        Reverse.TldrawCoords c;
        Reverse.Json c (parseFloat "100") (parseFloat "50")],
       Reverse.Returns).
Proof.
  apply (reverse_run_converts (reverse_world ["Page:2"; "x:100"; "y:50"])
           "a.tex" "12" []
           (String.concat (String (ascii_of_nat 10) EmptyString)
              ["Page:2"; "x:100"; "y:50"])
           2 (parseFloat "100") (parseFloat "50"));
    try (vm_compute; reflexivity).
  cbn. lia.
Defined.

(** X15. A run whose response names a page number above the number of
    pages of the document prints the TeX position and the native point
    and then dies on the page-not-found error of the conversion. *)
Theorem reverse_run_unknown_page (w : Reverse.world)
  (texFile lineArg : string) (rest : list string) (output : string)
  (p : nat) (x y : number) :
  Reverse.tex_exists w texFile = true →
  Reverse.execSync w texFile (parseInt lineArg) = Returned output →
  Reverse.parseSynctexOutput output !! "page" = Some (VNumber (of_nat p)) →
  Reverse.parseSynctexOutput output !! "x" = Some (VNumber x) →
  Reverse.parseSynctexOutput output !! "y" = Some (VNumber y) →
  (length (Reverse.svg_files w) < p)%nat →
  Reverse.main w (texFile :: lineArg :: rest)
  = ([Reverse.TexLine texFile (parseInt lineArg);
      Reverse.PdfCoords (of_nat p) x y],
     Reverse.Uncaught (Error_page_not_found (of_nat p))).
Proof.
  intros Htex Hexec Hpage Hx Hy Hp.
  destruct p as [|k]; [lia|].
  unfold Reverse.main, Reverse.synctexView.
  rewrite Htex, Hexec. cbn [negb].
  rewrite (reverse_number_property _ "page" _ Hpage),
    (reverse_number_property _ "x" x Hx),
    (reverse_number_property _ "y" y Hy).
  rewrite truthy_of_nat by lia. cbn [negb].
  unfold Reverse.pdfToTldrawCoords. rewrite pages_index.
  rewrite (proj2 (lookup_ge_None _ k)); [reflexivity|].
  rewrite reverse_resolver_length. lia.
Qed.

Lemma reverse_run_unknown_page_witness :
  Reverse.main (reverse_world ["Page:9"; "x:100"; "y:50"]) ["a.tex"; "12"]
  = ([Reverse.TexLine "a.tex" (parseInt "12");
      Reverse.PdfCoords (of_nat 9) (parseFloat "100") (parseFloat "50")],
     Reverse.Uncaught (Error_page_not_found (of_nat 9))).
Proof.
  apply (reverse_run_unknown_page
           (reverse_world ["Page:9"; "x:100"; "y:50"]) "a.tex" "12" []
           (String.concat (String (ascii_of_nat 10) EmptyString)
              ["Page:9"; "x:100"; "y:50"])
           9 (parseFloat "100") (parseFloat "50"));
    try (vm_compute; reflexivity).
  cbn. lia.
Defined.

(** X16. The reverse script returns normally only after a conversion on a
    page of the document: whenever [main] returns, the command line had a
    TeX file and a line, the response named a whole page number from 1 to
    the number of pages, and exactly four messages were printed, the last
    two carrying the canvas point of the conversion. *)
Theorem reverse_run_returns_only_on_a_page (w : Reverse.world)
  (args : list string) (printed : list Reverse.message) :
  Reverse.main w args = (printed, Reverse.Returns) →
  ∃ (texFile lineArg : string) (rest : list string) (p : nat)
    (x y : number) (c : Reverse.tldraw_coords),
    args = texFile :: lineArg :: rest ∧
    (1 <= p <= length (Reverse.svg_files w))%nat ∧
    Reverse.pdfToTldrawCoords
      (Reverse.getPageDimensions None (Reverse.svg_files w)).1
      (of_nat p) x y = Normal c ∧
    printed = [Reverse.TexLine texFile (parseInt lineArg);
               Reverse.PdfCoords (of_nat p) x y;
               Reverse.TldrawCoords c;
               Reverse.Json c x y].
Proof.
  intros H. unfold Reverse.main in H.
  destruct args as [|texFile [|lineArg rest]]; try discriminate.
  destruct (negb (Reverse.tex_exists w texFile)); [discriminate|].
  destruct (Reverse.synctexView _ _ _) as [msg|result]; [discriminate|].
  destruct (Reverse.number_property result "page") as [page|];
    [|discriminate].
  destruct (Reverse.number_property result "x") as [x|]; [|discriminate].
  destruct (negb (truthy page)); [discriminate|].
  destruct (Reverse.number_property result "y") as [y|]; [|discriminate].
  destruct (Reverse.pdfToTldrawCoords _ page x y) as [c|e] eqn:Hc;
    [|discriminate].
  injection H as <-.
  assert (Hp : ∃ p : nat, page = of_nat p ∧
            (1 <= p <= length (Reverse.svg_files w))%nat).
  { unfold Reverse.pdfToTldrawCoords in Hc.
    destruct (array_get _ (page - one)%js) as [pg|] eqn:Hpg;
      [|discriminate].
    destruct (array_get_page_number _ _ _ Hpg) as (p & -> & Hp).
    rewrite reverse_resolver_length in Hp. eauto. }
  destruct Hp as (p & -> & Hp).
  exists texFile, lineArg, rest, p, x, y, c.
  split; [reflexivity|]. split; [exact Hp|]. split; [exact Hc|reflexivity].
Qed.

Lemma reverse_run_returns_only_on_a_page_witness :
  ∃ (texFile lineArg : string) (rest : list string) (p : nat)
    (x y : number) (c : Reverse.tldraw_coords),
    ["a.tex"; "12"] = texFile :: lineArg :: rest ∧
    (1 <= p <= length sample_files)%nat ∧
    Reverse.pdfToTldrawCoords
      (Reverse.getPageDimensions None sample_files).1
      (of_nat p) x y = Normal c ∧
    (Reverse.main (reverse_world ["Page:2"; "x:100"; "y:50"])
       ["a.tex"; "12"]).1
    = [Reverse.TexLine texFile (parseInt lineArg);
       Reverse.PdfCoords (of_nat p) x y;
       Reverse.TldrawCoords c;
       Reverse.Json c x y].
Proof.
  apply (reverse_run_returns_only_on_a_page
           (reverse_world ["Page:2"; "x:100"; "y:50"]) ["a.tex"; "12"]).
  vm_compute. reflexivity.
Defined.

(** X17. The reverse script ignores the exit status of the oracle when the
    oracle wrote something: a run whose oracle fails with a non-empty
    output ends as the run whose oracle returns that output.  When the
    oracle fails with no output, the run prints nothing and dies on the
    error of the child process. *)
Theorem reverse_run_oracle_failure (w : Reverse.world)
  (texFile lineArg : string) (rest : list string)
  (stdout : option string) (message : string) :
  Reverse.tex_exists w texFile = true →
  Reverse.execSync w texFile (parseInt lineArg) = Failed stdout message →
  (∀ (out : string) (w' : Reverse.world),
     stdout = Some out → out ≠ EmptyString →
     Reverse.tex_exists w' texFile = true →
     Reverse.svg_files w' = Reverse.svg_files w →
     Reverse.execSync w' texFile (parseInt lineArg) = Returned out →
     Reverse.main w (texFile :: lineArg :: rest)
     = Reverse.main w' (texFile :: lineArg :: rest))
  ∧ (stdout = None ∨ stdout = Some EmptyString →
     Reverse.main w (texFile :: lineArg :: rest)
     = ([], Reverse.UncaughtChildProcess message)).
Proof.
  intros Htex Hexec. split.
  - intros out w' -> Hout Htex' Hfiles Hexec'.
    unfold Reverse.main, Reverse.synctexView.
    rewrite Htex, Htex', Hexec, Hexec', Hfiles.
    destruct out; [contradiction|reflexivity].
  - intros [-> | ->]; unfold Reverse.main, Reverse.synctexView;
      rewrite Htex, Hexec; reflexivity.
Qed.

Lemma reverse_run_oracle_failure_witness :
  Reverse.main (failing_reverse_world "Page:2") ["a.tex"; "12"]
  = Reverse.main (reverse_world ["Page:2"]) ["a.tex"; "12"].
Proof.
  apply (proj1 (reverse_run_oracle_failure
                  (failing_reverse_world "Page:2") "a.tex" "12" []
                  (Some "Page:2") "exit status 1" eq_refl eq_refl)
           "Page:2" (reverse_world ["Page:2"]));
    try reflexivity.
  discriminate.
Defined.

(** ** The layout of the viewer *)

Lemma placePages_agree (svgs : list (option SvgDocument.svg_element))
  (files : list string) (pageNum top widest : number) :
  map SvgDocument.nativeSize svgs
  = map (λ pg, (Lookup.origWidth pg, Lookup.origHeight pg))
      (Lookup.readPages files pageNum top) →
  map (λ p, (SvgDocument.y (SvgDocument.bounds p),
             SvgDocument.w (SvgDocument.bounds p),
             SvgDocument.h (SvgDocument.bounds p)))
    (SvgDocument.placePages svgs top widest).1
  = map (λ pg, (Lookup.top pg, Lookup.scaledWidth pg,
                Lookup.scaledHeight pg))
      (Lookup.readPages files pageNum top).
Proof.
  revert files pageNum top widest.
  induction svgs as [|svgEl rest IH]; intros files pageNum top widest H.
  - destruct files as [|f files]; [reflexivity|discriminate].
  - destruct files as [|f files]; [discriminate|].
    cbn [Lookup.readPages map] in H. injection H as Hsize Hrest.
    cbn [SvgDocument.placePages Lookup.readPages].
    rewrite Hsize.
    destruct (readPage_fields f pageNum top)
      as (_ & Htop & Hscale & Hsh & _).
    pose proof (readPage_scaledWidth f pageNum top) as Hsw.
    cbn zeta in Hsw, Htop, Hscale, Hsh.
    set (pg := Lookup.readPage f pageNum top) in *.
    change (of_Z 800) with Lookup.TARGET_WIDTH.
    rewrite <- Hscale, <- Hsh, <- Hsw.
    change SvgDocument.pageSpacing with Lookup.PAGE_SPACING.
    specialize (IH files (pageNum + one)%js
                  (top + (Lookup.scaledHeight pg + Lookup.PAGE_SPACING))%js
                  (SvgDocument.Math_max widest (Lookup.scaledWidth pg))
                  Hrest).
    destruct (SvgDocument.placePages rest _ _) as [pages widest'].
    cbn [fst map SvgDocument.bounds SvgDocument.y SvgDocument.w
           SvgDocument.h] in *.
    rewrite IH, Htop. reflexivity.
Qed.

(** X18. The viewer lays the pages out where the resolver of the scripts
    says they are: when the viewer reads from the svg elements the native
    sizes that the resolver reads from the files, every page image has the
    top, the width and the height of the resolver's page. *)
Theorem viewer_layout_agrees (svgs : list (option SvgDocument.svg_element))
  (files : list string) :
  map SvgDocument.nativeSize svgs
  = map (λ pg, (Lookup.origWidth pg, Lookup.origHeight pg))
      (Lookup.getPageDimensions None files).1 →
  map (λ p, (SvgDocument.y (SvgDocument.bounds p),
             SvgDocument.w (SvgDocument.bounds p),
             SvgDocument.h (SvgDocument.bounds p)))
    (SvgDocument.loadSvgDocument svgs)
  = map (λ pg, (Lookup.top pg, Lookup.scaledWidth pg,
                Lookup.scaledHeight pg))
      (Lookup.getPageDimensions None files).1.
Proof.
  cbn [Lookup.getPageDimensions fst]. intros H.
  rewrite <- (placePages_agree svgs files one zero zero H).
  unfold SvgDocument.loadSvgDocument.
  destruct (SvgDocument.placePages svgs zero zero) as [pages widest].
  cbn [fst]. rewrite map_map. reflexivity.
Qed.

Lemma viewer_layout_agrees_witness :
  map (λ p, (SvgDocument.y (SvgDocument.bounds p),
             SvgDocument.w (SvgDocument.bounds p),
             SvgDocument.h (SvgDocument.bounds p)))
    (SvgDocument.loadSvgDocument sample_svgs)
  = map (λ pg, (Lookup.top pg, Lookup.scaledWidth pg,
                Lookup.scaledHeight pg))
      (Lookup.getPageDimensions None sample_files).1.
Proof.
  apply (viewer_layout_agrees sample_svgs sample_files).
  vm_compute. reflexivity.
Defined.

Lemma scale_to_800 (q : Qc) :
  (0 < q)%Qc → (Fin q * (of_Z 800 / Fin q))%js = of_Z 800.
Proof.
  intros Hq. unfold of_Z. rewrite div_Fin by exact Hq.
  cbn [mul]. f_equal. field. exact (Qcpos_nonzero q Hq).
Qed.

Lemma Math_max_800 (widest : number) :
  widest = zero ∨ widest = of_Z 800 →
  SvgDocument.Math_max widest (of_Z 800) = of_Z 800.
Proof. intros [-> | ->]; vm_compute; reflexivity. Qed.

Lemma placePages_positive (svgs : list (option SvgDocument.svg_element))
  (top widest : number) :
  Forall (λ el, positive (SvgDocument.nativeSize el).1) svgs →
  widest = zero ∨ widest = of_Z 800 →
  Forall (λ p, SvgDocument.w (SvgDocument.bounds p) = of_Z 800
               ∧ SvgDocument.width p = of_Z 800)
    (SvgDocument.placePages svgs top widest).1
  ∧ (SvgDocument.placePages svgs top widest).2
    = match svgs with [] => widest | _ => of_Z 800 end.
Proof.
  intros Hpos. revert top widest.
  induction Hpos as [|svgEl rest (q & Hq & Hqpos) Hrest IH];
    intros top widest Hwidest.
  - split; [constructor|reflexivity].
  - cbn [SvgDocument.placePages].
    destruct (SvgDocument.nativeSize svgEl) as [width height].
    cbn [fst] in Hq. subst width. rewrite (scale_to_800 q Hqpos).
    rewrite (Math_max_800 widest Hwidest).
    destruct (IH (top + (height * (of_Z 800 / Fin q)
                         + SvgDocument.pageSpacing))%js
                (of_Z 800) (or_intror eq_refl)) as [Hall Hlast].
    destruct (SvgDocument.placePages rest _ _) as [pages widest'].
    cbn [fst snd] in *. split.
    + constructor; [split; reflexivity|exact Hall].
    + rewrite Hlast. destruct rest; reflexivity.
Qed.



(** ** New annotations and their clusters *)

Lemma clusterLoop_closed (clusters : list (list ViewSnapshot.annotation))
  (currentCluster : list ViewSnapshot.annotation)
  (prev : ViewSnapshot.annotation) (rest : list ViewSnapshot.annotation) :
  ViewSnapshot.clusterLoop clusters currentCluster prev rest
  = clusters ++ ViewSnapshot.clusterLoop [] currentCluster prev rest.
Proof.
  revert clusters currentCluster prev.
  induction rest as [|curr rest IH]; intros clusters currentCluster prev.
  - reflexivity.
  - cbn [ViewSnapshot.clusterLoop].
    destruct (ViewSnapshot.ann_y curr - ViewSnapshot.ann_y prev
              <? ViewSnapshot.PAGE_HEIGHT)%js.
    + apply IH.
    + rewrite (IH (clusters ++ [currentCluster])),
        (IH ([] ++ [currentCluster])).
      rewrite <- app_assoc. reflexivity.
Qed.

Lemma clusterLoop_open (a : ViewSnapshot.annotation)
  (currentCluster : list ViewSnapshot.annotation)
  (prev : ViewSnapshot.annotation) (rest : list ViewSnapshot.annotation) :
  ViewSnapshot.clusterLoop [] (a :: currentCluster) prev rest
  = match ViewSnapshot.clusterLoop [] currentCluster prev rest with
    | c :: cs => (a :: c) :: cs
    | [] => []
    end.
Proof.
  revert currentCluster prev.
  induction rest as [|curr rest IH]; intros currentCluster prev.
  - reflexivity.
  - cbn [ViewSnapshot.clusterLoop].
    destruct (ViewSnapshot.ann_y curr - ViewSnapshot.ann_y prev
              <? ViewSnapshot.PAGE_HEIGHT)%js.
    + apply (IH (currentCluster ++ [curr])).
    + rewrite (clusterLoop_closed ([] ++ [a :: currentCluster])),
        (clusterLoop_closed ([] ++ [currentCluster])).
      reflexivity.
Qed.

(** The clusters of an array, from the clusters of its tail. *)
Lemma clusterAnnotations_cons (first curr : ViewSnapshot.annotation)
  (rest : list ViewSnapshot.annotation) :
  ViewSnapshot.clusterAnnotations first (curr :: rest)
  = if (ViewSnapshot.ann_y curr - ViewSnapshot.ann_y first
        <? ViewSnapshot.PAGE_HEIGHT)%js
    then match ViewSnapshot.clusterAnnotations curr rest with
         | c :: cs => (first :: c) :: cs
         | [] => []
         end
    else [first] :: ViewSnapshot.clusterAnnotations curr rest.
Proof.
  unfold ViewSnapshot.clusterAnnotations. cbn [ViewSnapshot.clusterLoop].
  destruct (ViewSnapshot.ann_y curr - ViewSnapshot.ann_y first
            <? ViewSnapshot.PAGE_HEIGHT)%js.
  - apply (clusterLoop_open first [curr] curr rest).
  - apply (clusterLoop_closed ([] ++ [[first]])).
Qed.

Lemma clusterAnnotations_head (first : ViewSnapshot.annotation)
  (rest : list ViewSnapshot.annotation) :
  ∃ c cs, ViewSnapshot.clusterAnnotations first rest = (first :: c) :: cs.
Proof.
  revert first. induction rest as [|curr rest IH]; intros first.
  - exists [], []. reflexivity.
  - rewrite clusterAnnotations_cons.
    destruct (IH curr) as (c & cs & ->).
    destruct (_ <? _)%js; eauto.
Qed.

(** X20. The clusters are the new annotations cut into consecutive runs:
    put one after the other they give back the sorted array, in its order,
    and no cluster is empty. *)
Theorem clusters_partition (first : ViewSnapshot.annotation)
  (rest : list ViewSnapshot.annotation) :
  concat (ViewSnapshot.clusterAnnotations first rest) = first :: rest
  ∧ Forall (λ c, c ≠ []) (ViewSnapshot.clusterAnnotations first rest).
Proof.
  revert first. induction rest as [|curr rest IH]; intros first.
  - split; [reflexivity|]. repeat constructor. discriminate.
  - rewrite clusterAnnotations_cons.
    destruct (IH curr) as [Hconcat Hall].
    destruct (clusterAnnotations_head curr rest) as (c & cs & Heq).
    rewrite Heq in *.
    destruct (_ <? _)%js.
    + split.
      * cbn [concat] in *. cbn [app]. f_equal. exact Hconcat.
      * apply Forall_cons in Hall as [_ Hall].
        constructor; [discriminate|exact Hall].
    + split.
      * cbn [concat app] in *. f_equal. exact Hconcat.
      * constructor; [discriminate|exact Hall].
Qed.

(** X21. A cluster ends exactly where the next annotation is a page height
    or more below: two neighbours inside a cluster are less than
    [PAGE_HEIGHT] apart in y, and the last annotation of a cluster and the
    first of the next are not. *)
Theorem clusters_split_at_gaps (first : ViewSnapshot.annotation)
  (rest : list ViewSnapshot.annotation) :
  (∀ (c : list ViewSnapshot.annotation) (i : nat)
     (a b : ViewSnapshot.annotation),
     c ∈ ViewSnapshot.clusterAnnotations first rest →
     c !! i = Some a → c !! S i = Some b →
     (ViewSnapshot.ann_y b - ViewSnapshot.ann_y a
      <? ViewSnapshot.PAGE_HEIGHT)%js = true)
  ∧ (∀ (j : nat) (c d : list ViewSnapshot.annotation)
       (a b : ViewSnapshot.annotation),
       ViewSnapshot.clusterAnnotations first rest !! j = Some c →
       ViewSnapshot.clusterAnnotations first rest !! S j = Some d →
       last c = Some a → head d = Some b →
       (ViewSnapshot.ann_y b - ViewSnapshot.ann_y a
        <? ViewSnapshot.PAGE_HEIGHT)%js = false).
Proof.
  revert first. induction rest as [|curr rest IH]; intros first.
  - split.
    + intros c i a b Hc Ha Hb. cbn in Hc.
      apply list_elem_of_singleton in Hc. subst c.
      cbn in Hb. discriminate.
    + intros j c d a b Hc Hd. cbn in Hd. discriminate.
  - rewrite clusterAnnotations_cons.
    destruct (IH curr) as [Hin Hcut].
    destruct (clusterAnnotations_head curr rest) as (c0 & cs & Heq).
    rewrite Heq in *.
    destruct (ViewSnapshot.ann_y curr - ViewSnapshot.ann_y first
              <? ViewSnapshot.PAGE_HEIGHT)%js eqn:Hclose.
    + split.
      * intros c i a b Hc Ha Hb.
        apply elem_of_cons in Hc as [-> | Hc].
        -- destruct i as [|i].
           ++ cbn in Ha, Hb. injection Ha as <-. injection Hb as <-.
              exact Hclose.
           ++ apply (Hin (curr :: c0) i a b); [left|exact Ha|exact Hb].
        -- apply (Hin c i a b); [right; exact Hc|exact Ha|exact Hb].
      * intros j c d a b Hc Hd Ha Hb.
        destruct j as [|j].
        -- cbn in Hc. injection Hc as <-.
           apply (Hcut 0%nat (curr :: c0) d a b);
             [reflexivity|exact Hd|exact Ha|exact Hb].
        -- apply (Hcut (S j) c d a b); assumption.
    + split.
      * intros c i a b Hc Ha Hb.
        apply elem_of_cons in Hc as [-> | Hc].
        -- cbn in Hb. discriminate.
        -- apply (Hin c i a b); assumption.
      * intros j c d a b Hc Hd Ha Hb.
        destruct j as [|j].
        -- cbn in Hc, Hd. injection Hc as <-. injection Hd as <-.
           cbn in Ha, Hb. injection Ha as <-. injection Hb as <-.
           exact Hclose.
        -- apply (Hcut j c d a b); assumption.
Qed.

Lemma clusters_split_at_gaps_witness :
  (ViewSnapshot.ann_y (sample_annotation "shape:b" 900)
   - ViewSnapshot.ann_y (sample_annotation "shape:a" 100)
   <? ViewSnapshot.PAGE_HEIGHT)%js = true
  ∧ (ViewSnapshot.ann_y (sample_annotation "shape:c" 2500)
     - ViewSnapshot.ann_y (sample_annotation "shape:b" 900)
     <? ViewSnapshot.PAGE_HEIGHT)%js = false.
Proof.
  destruct (clusters_split_at_gaps (sample_annotation "shape:a" 100)
              [sample_annotation "shape:b" 900;
               sample_annotation "shape:c" 2500]) as [Hin Hcut].
  split.
  - apply (Hin [sample_annotation "shape:a" 100;
                sample_annotation "shape:b" 900] 0%nat);
      [|reflexivity|reflexivity].
    apply list_elem_of_In. vm_compute. left. reflexivity.
  - apply (Hcut 0%nat
             [sample_annotation "shape:a" 100;
              sample_annotation "shape:b" 900]
             [sample_annotation "shape:c" 2500]);
      vm_compute; reflexivity.
Defined.

(** X22. The annotations reported as new are exactly the annotations of
    the snapshot whose identifier was not saved by the run before, in the
    order of the snapshot; a first run, with nothing saved, reports all
    of them, and a second run on an unchanged snapshot reports none. *)
Theorem new_annotations_are_the_unsaved
  (previous all : list ViewSnapshot.annotation) :
  ViewSnapshot.newAnnotations (ViewSnapshot.savedIds previous) all
  = List.filter
      (λ a, negb (existsb (String.eqb (ViewSnapshot.ann_id a))
                    (map ViewSnapshot.ann_id previous)))
      all
  ∧ ViewSnapshot.newAnnotations ∅ all = all
  ∧ ViewSnapshot.newAnnotations (ViewSnapshot.savedIds all) all = [].
Proof.
  assert (Hsaved : ∀ (prev : list ViewSnapshot.annotation) (s : string),
            bool_decide (s ∈ ViewSnapshot.savedIds prev)
            = existsb (String.eqb s) (map ViewSnapshot.ann_id prev)).
  { intros prev s. unfold ViewSnapshot.savedIds.
    destruct (existsb (String.eqb s) (map ViewSnapshot.ann_id prev))
      eqn:Hex.
    - apply bool_decide_eq_true. apply existsb_exists in Hex
        as (s' & Hin & Heq).
      apply String.eqb_eq in Heq. subst s'.
      apply elem_of_list_to_set, list_elem_of_In. exact Hin.
    - apply bool_decide_eq_false. intros Hin.
      apply elem_of_list_to_set, list_elem_of_In in Hin.
      apply not_true_iff_false in Hex. apply Hex.
      apply existsb_exists. exists s. split; [exact Hin|].
      apply String.eqb_refl. }
  split; [|split].
  - unfold ViewSnapshot.newAnnotations.
    induction all as [|a all IH]; [reflexivity|].
    cbn [List.filter]. rewrite Hsaved, IH. reflexivity.
  - unfold ViewSnapshot.newAnnotations.
    induction all as [|a all IH]; [reflexivity|].
    cbn [List.filter]. rewrite bool_decide_eq_false_2 by set_solver.
    cbn [negb]. f_equal. exact IH.
  - unfold ViewSnapshot.newAnnotations.
    assert (Hgen : ∀ l : list ViewSnapshot.annotation,
              (∀ a, a ∈ l → a ∈ all) →
              List.filter
                (λ a, negb (bool_decide
                              (ViewSnapshot.ann_id a
                               ∈ ViewSnapshot.savedIds all))) l = []).
    { induction l as [|a l IH]; intros Hsub; [reflexivity|].
      cbn [List.filter]. rewrite bool_decide_eq_true_2.
      - cbn [negb]. apply IH. intros b Hb. apply Hsub. right. exact Hb.
      - unfold ViewSnapshot.savedIds. apply elem_of_list_to_set.
        apply list_elem_of_fmap. exists a. split; [reflexivity|].
        apply Hsub. left. }
    apply Hgen. auto.
Qed.

(** X23. No page image is taken for an annotation, and every annotation
    has a colour: the annotations collected from a snapshot are shapes
    other than images, one for each such record and in the order of the
    store, and the colour of none of them is empty. *)
Theorem annotations_exclude_images (store : list ViewSnapshot.store_record) :
  Forall (λ a, ViewSnapshot.ann_type a ≠ "image"
               ∧ ViewSnapshot.ann_color a ≠ EmptyString)
    (ViewSnapshot.allAnnotations store)
  ∧ map ViewSnapshot.ann_id (ViewSnapshot.allAnnotations store)
    = map ViewSnapshot.id
        (List.filter
           (λ record, String.eqb (ViewSnapshot.typeName record) "shape"
                      && negb (String.eqb (ViewSnapshot.type record)
                                 "image"))
           store).
Proof.
  unfold ViewSnapshot.allAnnotations. split.
  - apply Forall_map, Forall_forall. intros record Hrecord.
    apply list_elem_of_In, filter_In in Hrecord as [_ Hkeep].
    apply andb_true_iff in Hkeep as [_ Himage].
    cbn [ViewSnapshot.ann_type ViewSnapshot.ann_color]. split.
    + intros Heq. rewrite Heq in Himage. discriminate.
    + destruct (ViewSnapshot.color record) as [[|c s]|]; discriminate.
  - rewrite map_map. reflexivity.
Qed.
